(** * The chat turn route (src/route.ts): a shallow embedding

    The route handler [POST] receives one conversational turn, fetches the
    persona of the chat block, classifies the last message, fetches the
    company's block rules, stores the inbound message, evaluates the rules,
    computes a rewritten copy of the history, calls the completion chain and
    stores the reply.

    JavaScript strings are modelled by [string]: one [ascii] stands for one
    code unit.  The calls that leave the handler (database, classifier,
    completion chain, loggers) are answered by an environment record, and
    every such call is written to a trace, next to the table of stored chat
    messages.  Timestamps ([new Date()]) are left out of the stored rows, and
    a select without error is taken to return its array of rows. *)

From Stdlib Require Import String Ascii List Bool Arith Lia ZArith.
Import ListNotations.
Open Scope string_scope.

(** ** JavaScript string operations used by the handler *)

Module JSString.

(** [IsStringPrefix(s, p)]: [p] is a prefix of [s]. *)
Fixpoint startsWith (s p : string) {struct p} : bool :=
  match p, s with
  | EmptyString, _ => true
  | String _ _, EmptyString => false
  | String a p', String b s' => Ascii.eqb a b && startsWith s' p'
  end.

(** [StringIndexOf(s, searchValue, 0)]: the first index at which
    [searchValue] occurs in [s]; the empty string occurs at index 0. *)
Fixpoint StringIndexOf (s searchValue : string) : option nat :=
  if startsWith s searchValue then Some 0
  else match s with
       | EmptyString => None
       | String _ s' => option_map S (StringIndexOf s' searchValue)
       end.

(** [String.prototype.includes]. *)
Definition includes (s searchString : string) : bool :=
  match StringIndexOf s searchString with
  | Some _ => true
  | None => false
  end.

(** The substring of [s] from index [from] (inclusive) to [to] (exclusive). *)
Definition substringFromTo (s : string) (from to : nat) : string :=
  substring from (to - from) s.

(** [GetSubstitution(matched, str, position, captures, namedCaptures,
    replacementTemplate)] for a string pattern: there are no captures and no
    named captures, so [$n] and [$<] stand for themselves, and only the
    templates [$$], [$`], [$&] and [$'] are expanded. *)
Fixpoint GetSubstitution (matched str : string) (position : nat)
    (replacementTemplate : string) : string :=
  match replacementTemplate with
  | EmptyString => EmptyString
  | String c rest =>
      if Ascii.eqb c "$" then
        match rest with
        | EmptyString => String c EmptyString
        | String d rest' =>
            if Ascii.eqb d "$" then
              String "$" (GetSubstitution matched str position rest')
            else if Ascii.eqb d "`" then
              substringFromTo str 0 position
                ++ GetSubstitution matched str position rest'
            else if Ascii.eqb d "&" then
              matched ++ GetSubstitution matched str position rest'
            else if Ascii.eqb d "'" then
              let tailPos := position + String.length matched in
              substringFromTo str (Nat.min tailPos (String.length str))
                              (String.length str)
                ++ GetSubstitution matched str position rest'
            else String c (GetSubstitution matched str position rest)
        end
      else String c (GetSubstitution matched str position rest)
  end.

(** [String.prototype.replace(searchValue, replaceValue)] with two strings:
    only the first occurrence of [searchValue] is replaced. *)
Definition replace (s searchValue replaceValue : string) : string :=
  match StringIndexOf s searchValue with
  | None => s
  | Some pos =>
      let preserved := substringFromTo s 0 pos in
      let replacement := GetSubstitution searchValue s pos replaceValue in
      preserved ++ replacement
        ++ substringFromTo s (pos + String.length searchValue) (String.length s)
  end.

(** [Array.prototype.join(sep)] on an array of strings. *)
Definition join (sep : string) (parts : list string) : string :=
  String.concat sep parts.

End JSString.

(** ** Data of the handler *)

(** [Message] of the [ai] package, as the handler uses it. *)
Record Message := mkMessage { role : string; content : string }.

(** One element of [incomingData.messages]: the fields the handler reads,
    and the identifier the client sends along, which the handler drops. *)
Record RawMessage := mkRawMessage {
  raw_id : option string;
  raw_role : string;
  raw_content : string
}.

Record Request := mkRequest {
  messages_in : list RawMessage;
  company_id : string;
  user_id : string;
  chat_block_id : string
}.

(** A row of [block_rule] that [BlockRuleSchema.parse] accepted, with the
    fields the spec lists for a block rule. *)
Record BlockRule := mkBlockRule {
  rule_id : Z;
  rule_company_id : string;
  matcher : string;
  rule_substitution : string
}.

(** One triggered rule, as [evaluateMessageAgainstRules] returns it: the
    rewrite reads [original] and [substitution]; the rule and the message it
    was triggered by are the other two fields the spec lists. *)
Record TriggeredRule := mkTriggeredRule {
  original : string;
  substitution : string;
  triggered_rule_id : Z;
  triggering_message_id : Z
}.

(** ** The rewrite of the history (route.ts, lines 152-164) *)

(** The body of [triggeredRules.forEach]: one [replace] per rule, in the
    order of the array, each on the content the previous one left. *)
Definition applyTriggeredRules (triggeredRules : list TriggeredRule)
    (content0 : string) : string :=
  fold_left
    (fun newContent rule =>
       JSString.replace newContent (original rule) (substitution rule))
    triggeredRules content0.

(** [newMessages = messages.map(message => ...)]. *)
Definition newMessages (messages : list Message)
    (triggeredRules : list TriggeredRule) : list Message :=
  map (fun message =>
         {| role := role message;
            content := applyTriggeredRules triggeredRules (content message) |})
      messages.

(** ** Collaborators of the handler *)

(** What [categorizePrompt] resolves to. *)
Record Categorization := mkCategorization {
  category : string;
  complexity : string;
  topics : list string
}.

(** The row the select on [chat_block_persona] yields: the joined persona,
    whose [attributes] object is read with [Object.entries]. *)
Record Persona := mkPersona { attributes : option (list (string * Z)) }.
Record PersonaRow := mkPersonaRow { persona : option Persona }.
Record PersonaFetch := mkPersonaFetch {
  personaData : option PersonaRow;
  personaError : option string
}.

(** A row of [block_rule] before [BlockRuleSchema.parse]. *)
Record RawRule := mkRawRule {
  raw_rule_id : option Z;
  raw_rule_company_id : option string;
  raw_matcher : option string;
  raw_substitution : option string
}.

(** The answer of the select on [block_rule] for one company: an error, or
    the array of rows. *)
Inductive RulesFetch :=
| RulesError (e : string)
| RulesData (rows : list RawRule).

Inductive MessageType := USER | BOT.

(** The object given to [chat_message.insert]. *)
Record NewChatMessage := mkNewChatMessage {
  msg_chat_block_id : string;
  msg_content : string;
  msg_user_id : option string;
  msg_type : MessageType;
  msg_content_type : string;
  msg_category : string
}.

(** A stored row of [chat_message]: the inserted object and the identifier
    the database generated for it. *)
Record ChatMessageRow := mkChatMessageRow {
  row_id : Z;
  row_message : NewChatMessage
}.

(** The answer of [insert([...]).select()]: an error, or the inserted row,
    of which the handler reads the identifier. *)
Inductive InsertResult :=
| InsertError (e : string)
| InsertData (id : Z).

(** The value [chainB.call] resolves to. *)
Record ChainValues := mkChainValues { text : string }.

(** [chainB.call] rejects, or resolves to a value that the handler tests
    for truthiness and then gives to [NextResponse.json].
    [CallResolves (Some values)] is a truthy value; [CallResolves None] is a
    falsy value that JSON can hold ([null], [false], [0], [NaN], the empty
    string); [CallResolvesUndefined] is [undefined], a falsy value for which
    [NextResponse.json] throws a [TypeError]. *)
Inductive CallResult :=
| CallRejects (e : string)
| CallResolvesUndefined
| CallResolves (resB : option ChainValues).

(** The events given to [apiLogger]. *)
Inductive LogEntry :=
| CHAT_MESSAGE_CREATED (message : string) (categorization : Categorization)
    (company user : string)
| CHAT_MESSAGE_BLOCK_RULE_TRIGGERED (message : string)
    (triggeredRules : list TriggeredRule) (company user : string).

(** The environment answers every call that leaves the handler.
    [createPersonaPrompt] (utils/personaAttributes), [BlockRuleSchema]
    (types/schemas) and [evaluateMessageAgainstRules] (utils/ruleHelpers) are
    imported by the handler and not among the sources: the handler is run
    with whatever they return, [None] when they throw or reject.
    [chainSetup template] is the error, if any, that the construction of the
    prompt template, the model and the output parser (lines 71-77) throws;
    [chainCall] stands for lines 166-176. *)
Record Env := mkEnv {
  fetchPersona : string -> PersonaFetch;
  createPersonaPrompt : list (string * Z) -> option string;
  chainSetup : string -> option string;
  categorizePrompt : string -> option Categorization;
  fetchBlockRules : string -> RulesFetch;
  BlockRuleSchema_parse : RawRule -> option BlockRule;
  insertChatMessage : NewChatMessage -> list ChatMessageRow -> InsertResult;
  evaluateMessageAgainstRules :
    Message -> string -> string -> Z -> list BlockRule
    -> option (list TriggeredRule);
  chainCall : string -> string -> string -> CallResult
}.

(** A level of the type [0 | 1 | 2] that line 53 casts the values to. *)
Definition levelInRange (level : Z) : bool :=
  (0 <=? level)%Z && (level <=? 2)%Z.

(** Modelled from the spec: [createPersonaPrompt] (utils/personaAttributes)
    is not among the sources.  The spec makes it a pure function of the
    attribute levels that fails with a configuration error when the
    attribute set is empty or a level is outside 0, 1, 2 ([None]); the text
    of the fragment is left to [fragment]. *)
Definition createPersonaPromptSpec (fragment : list (string * Z) -> string)
    (attributesInput : list (string * Z)) : option string :=
  match attributesInput with
  | [] => None
  | _ :: _ =>
      if forallb (fun kv => levelInRange (snd kv)) attributesInput
      then Some (fragment attributesInput)
      else None
  end.

(** Modelled from the spec: [evaluateMessageAgainstRules] (utils/ruleHelpers)
    is not among the sources.  The spec iterates the rules in input order,
    tests whether the matcher occurs in the content of the message, and
    appends a triggered rule carrying the rule's original and substitution
    and the message id; every rule is tested against the original content. *)
Definition evaluateMessageAgainstRulesSpec (message : Message)
    (company user : string) (message_id : Z) (rules : list BlockRule)
    : list TriggeredRule :=
  map (fun rule =>
         {| original := matcher rule;
            substitution := rule_substitution rule;
            triggered_rule_id := rule_id rule;
            triggering_message_id := message_id |})
      (filter (fun rule => JSString.includes (content message) (matcher rule))
              rules).

(** ** The handler as a state and exit monad *)

(** What the handler can throw: a [TypeError] of the language, the error of
    [createPersonaPrompt], the error of [BlockRuleSchema.parse], an error of
    the chain constructors, and the rejection of an awaited call. *)
Inductive Error :=
| TypeError
| ConfigurationError
| ZodError
| Raised (e : string)
| Rejected (e : string).

(** What the handler returns: [null], nothing, or [NextResponse.json(resB)]. *)
Inductive Response :=
| ReturnNull
| ReturnUndefined
| ReturnJson (resB : option ChainValues).

(** How a call of the handler ends. *)
Inductive Outcome :=
| Responded (r : Response)
| Threw (e : Error).

(** The calls of a run, with their answers, and the rewritten history where
    the handler computes it. *)
Inductive Event :=
| EvRequest (req : Request)
| EvPersonaFetch (chat_block : string) (res : PersonaFetch)
| EvConsoleError (e : option string)
| EvConsoleLog (label : string)
| EvClassify (input : string) (res : option Categorization)
| EvApiLog (entry : LogEntry)
| EvRulesFetch (company : string) (res : RulesFetch)
| EvInsert (row : NewChatMessage) (res : InsertResult)
| EvEvaluate (message : Message) (message_id : Z) (rules : list BlockRule)
    (res : option (list TriggeredRule))
| EvNewMessages (rewritten : list Message)
| EvChainCall (template chat_history input : string) (res : CallResult)
| EvResponse (r : Response).

(** The table [chat_message] and the calls made so far, oldest first. *)
Record World := mkWorld {
  chat_message : list ChatMessageRow;
  trace : list Event
}.

(** A statement either goes on with a value or leaves the handler. *)
Definition M (A : Type) : Type := World -> (A + Outcome) * World.

Definition ret {A} (a : A) : M A := fun w => (inl a, w).

Definition bind {A B} (m : M A) (k : A -> M B) : M B :=
  fun w =>
    match m w with
    | (inl a, w') => k a w'
    | (inr o, w') => (inr o, w')
    end.

Notation "x <- m ;; k" := (bind m (fun x => k))
  (at level 61, m at next level, right associativity).
Notation "m ;;; k" := (bind m (fun _ => k))
  (at level 61, right associativity).

Definition emit (ev : Event) : M unit :=
  fun w => (inl tt, {| chat_message := chat_message w; trace := trace w ++ [ev] |}).

Definition throw {A} (e : Error) : M A := fun w => (inr (Threw e), w).

(** [return r;] *)
Definition respond {A} (r : Response) : M A :=
  fun w => (inr (Responded r),
            {| chat_message := chat_message w; trace := trace w ++ [EvResponse r] |}).

(** [from('chat_message').insert([row]).select()]: a successful insert adds
    the row to the table, a failed one leaves the table as it is. *)
Definition insert (env : Env) (row : NewChatMessage) : M InsertResult :=
  fun w =>
    let res := insertChatMessage env row (chat_message w) in
    (inl res,
     {| chat_message :=
          match res with
          | InsertData id => chat_message w ++ [mkChatMessageRow id row]
          | InsertError _ => chat_message w
          end;
        trace := trace w ++ [EvInsert row res] |}).

(** [xs[i]] for an integer index: [undefined] out of range. *)
Definition index {A} (xs : list A) (i : Z) : option A :=
  if (i <? 0)%Z then None else nth_error xs (Z.to_nat i).

(** [xs.length - 1]. *)
Definition lastIndex {A} (xs : list A) : Z := (Z.of_nat (length xs) - 1)%Z.

(** [xs[i].field]: reading a field of [undefined] throws a [TypeError]. *)
Definition member {A} (xs : list A) (i : Z) : M A :=
  match index xs i with
  | Some x => ret x
  | None => throw TypeError
  end.

(** [xs.slice(0, -1)]. *)
Definition sliceButLast {A} (xs : list A) : list A :=
  firstn (Z.to_nat (Z.max (Z.of_nat (length xs) - 1) 0)) xs.

(** [xs.map(f)] for an [f] that may throw: [None] when a call throws. *)
Fixpoint mapOption {A B} (f : A -> option B) (xs : list A) : option (list B) :=
  match xs with
  | [] => Some []
  | x :: xs' =>
      match f x with
      | None => None
      | Some y =>
          match mapOption f xs' with
          | None => None
          | Some ys => Some (y :: ys)
          end
      end
  end.

(** The callback of [rawMessages.map]: role and content are kept. *)
Definition toMessage (message : RawMessage) : Message :=
  {| role := raw_role message; content := raw_content message |}.

(** The line feed. *)
Definition nl : string := String (ascii_of_nat 10) EmptyString.

(** [formatMessage] (line 20). *)
Definition formatMessage (message : RawMessage) : string :=
  raw_role message ++ ": " ++ raw_content message.

(** The template literal of lines 60-66. *)
Definition TEMPLATE (generatedPrompt : string) : string :=
  generatedPrompt ++ nl
    ++ " " ++ nl
    ++ "  Current conversation:" ++ nl
    ++ "  {chat_history}" ++ nl
    ++ "  " ++ nl
    ++ "  User: {input}" ++ nl
    ++ "  AI:".

(** [Object.entries(personaData?.persona?.attributes!)]: a [TypeError] when
    the chain ends in [undefined] or [null]. *)
Definition attributeEntries (personaData : option PersonaRow)
    : option (list (string * Z)) :=
  match personaData with
  | None => None
  | Some row =>
      match persona row with
      | None => None
      | Some p => attributes p
      end
  end.

Definition isSome {A} (o : option A) : bool :=
  match o with Some _ => true | None => false end.

(** The body of [POST], statement by statement. *)
Definition POST_body (env : Env) (incomingData : Request) : M Empty_set :=
  emit (EvRequest incomingData) ;;;
  let rawMessages := messages_in incomingData in
  let company := company_id incomingData in
  let user := user_id incomingData in
  let chat_block := chat_block_id incomingData in
  let messages := map toMessage rawMessages in
  let personaRes := fetchPersona env chat_block in
  emit (EvPersonaFetch chat_block personaRes) ;;;
  (if isSome (personaError personaRes) || negb (isSome (personaData personaRes))
   then emit (EvConsoleError (personaError personaRes))
   else ret tt) ;;;
  emit (EvConsoleLog " personaData ") ;;;
  attributesInput <-
    match attributeEntries (personaData personaRes) with
    | Some entries => ret entries
    | None => throw TypeError
    end ;;
  generatedPrompt <-
    match createPersonaPrompt env attributesInput with
    | Some fragment => ret fragment
    | None => throw ConfigurationError
    end ;;
  let template := TEMPLATE generatedPrompt in
  let formattedPreviousMessages := map formatMessage (sliceButLast rawMessages) in
  lastRaw <- member rawMessages (lastIndex rawMessages) ;;
  let currentMessageContent := raw_content lastRaw in
  match chainSetup env template with
  | Some e => throw (Raised e)
  | None => ret tt
  end ;;;
  lastMessage <- member messages (lastIndex messages) ;;
  let classified := categorizePrompt env (content lastMessage) in
  emit (EvClassify (content lastMessage) classified) ;;;
  categorization <-
    match classified with
    | Some c => ret c
    | None => throw (Rejected "categorizePrompt")
    end ;;
  emit (EvApiLog (CHAT_MESSAGE_CREATED (content lastMessage) categorization
                    company user)) ;;;
  let rulesRes := fetchBlockRules env company in
  emit (EvRulesFetch company rulesRes) ;;;
  rulesData <-
    match rulesRes with
    | RulesError e => emit (EvConsoleError (Some e)) ;;; respond ReturnNull
    | RulesData rows => ret rows
    end ;;
  messageInsertRes <-
    insert env {| msg_chat_block_id := chat_block;
                  msg_content := content lastMessage;
                  msg_user_id := Some user;
                  msg_type := USER;
                  msg_content_type := "TEXT";
                  msg_category := category categorization |} ;;
  messageInsertId <-
    match messageInsertRes with
    | InsertError e => emit (EvConsoleError (Some e)) ;;; respond ReturnNull
    | InsertData id => emit (EvConsoleLog "messageInsert") ;;; ret id
    end ;;
  parsedRules <-
    match mapOption (BlockRuleSchema_parse env) rulesData with
    | Some rules => ret rules
    | None => throw ZodError
    end ;;
  let evaluated :=
    evaluateMessageAgainstRules env lastMessage company user messageInsertId
                                parsedRules in
  emit (EvEvaluate lastMessage messageInsertId parsedRules evaluated) ;;;
  triggeredRules <-
    match evaluated with
    | Some triggered => ret triggered
    | None => throw (Rejected "evaluateMessageAgainstRules")
    end ;;
  (if (0 <? length triggeredRules)%nat
   then emit (EvApiLog (CHAT_MESSAGE_BLOCK_RULE_TRIGGERED (content lastMessage)
                          triggeredRules company user))
   else ret tt) ;;;
  let rewritten := newMessages messages triggeredRules in
  emit (EvNewMessages rewritten) ;;;
  let chat_history := JSString.join nl formattedPreviousMessages in
  let callRes := chainCall env template chat_history currentMessageContent in
  emit (EvChainCall template chat_history currentMessageContent callRes) ;;;
  resB <-
    match callRes with
    | CallRejects e => throw (Rejected e)
    | CallResolvesUndefined =>
        (* [if (resB)] is skipped, and [NextResponse.json(undefined)] throws *)
        throw TypeError
    | CallResolves v => ret v
    end ;;
  match resB with
  | Some values =>
      outRes <-
        insert env {| msg_chat_block_id := chat_block;
                      msg_content := text values;
                      msg_user_id := None;
                      msg_type := BOT;
                      msg_content_type := "TEXT";
                      msg_category := category categorization |} ;;
      match outRes with
      | InsertError e => emit (EvConsoleError (Some e)) ;;; respond ReturnUndefined
      | InsertData _ => ret tt
      end
  | None => ret tt
  end ;;;
  respond (ReturnJson resB).

(** One call of the handler on a table: how it ends, and the world after. *)
Definition POST (env : Env) (incomingData : Request) (table : list ChatMessageRow)
    : Outcome * World :=
  match POST_body env incomingData (mkWorld table []) with
  | (inl impossible, _) => match impossible with end
  | (inr outcome, w) => (outcome, w)
  end.

(** The last element of [incomingData.messages], the inbound message. *)
Definition inboundMessage (incomingData : Request) : option RawMessage :=
  index (messages_in incomingData) (lastIndex (messages_in incomingData)).

(** ** Reading a trace *)

(** The states the spec names for one turn. *)
Inductive Stage :=
| Received
| Classified
| InboundPersisted
| RulesFetched
| RulesEvaluated
| HistoryRewritten
| CompletionInvoked
| OutboundPersisted
| Done.

(** The state an event of the trace reaches, if any: a call that fails
    reaches none. *)
Definition stageOf (ev : Event) : option Stage :=
  match ev with
  | EvRequest _ => Some Received
  | EvClassify _ (Some _) => Some Classified
  | EvRulesFetch _ (RulesData _) => Some RulesFetched
  | EvInsert row (InsertData _) =>
      match msg_type row with
      | USER => Some InboundPersisted
      | BOT => Some OutboundPersisted
      end
  | EvEvaluate _ _ _ (Some _) => Some RulesEvaluated
  | EvNewMessages _ => Some HistoryRewritten
  | EvChainCall _ _ _ (CallResolves _) => Some CompletionInvoked
  | EvChainCall _ _ _ CallResolvesUndefined => Some CompletionInvoked
  | EvResponse (ReturnJson _) => Some Done
  | _ => None
  end.

Fixpoint stages (t : list Event) : list Stage :=
  match t with
  | [] => []
  | ev :: t' =>
      match stageOf ev with
      | Some s => s :: stages t'
      | None => stages t'
      end
  end.

(** The order of the states as the spec lists them. *)
Definition specRank (s : Stage) : nat :=
  match s with
  | Received => 0
  | Classified => 1
  | InboundPersisted => 2
  | RulesFetched => 3
  | RulesEvaluated => 4
  | HistoryRewritten => 5
  | CompletionInvoked => 6
  | OutboundPersisted => 7
  | Done => 8
  end.

(** The order of the statements of [POST]: the rules are fetched (line 94)
    before the inbound message is inserted (line 104). *)
Definition codeRank (s : Stage) : nat :=
  match s with
  | Received => 0
  | Classified => 1
  | RulesFetched => 2
  | InboundPersisted => 3
  | RulesEvaluated => 4
  | HistoryRewritten => 5
  | CompletionInvoked => 6
  | OutboundPersisted => 7
  | Done => 8
  end.

(** Every state of the list has a higher rank than the one before it: no
    state is repeated and none is gone back to. *)
Fixpoint forwardOnly (rank : Stage -> nat) (l : list Stage) : bool :=
  match l with
  | [] => true
  | s :: l' =>
      match l' with
      | [] => true
      | s' :: _ => Nat.ltb (rank s) (rank s') && forwardOnly rank l'
      end
  end.

(** The chat history and the input of every completion call of a trace. *)
Fixpoint chainInputs (t : list Event) : list (string * string) :=
  match t with
  | [] => []
  | EvChainCall _ chat_history input _ :: t' =>
      (chat_history, input) :: chainInputs t'
  | _ :: t' => chainInputs t'
  end.

(** The rewritten histories computed in a trace. *)
Fixpoint rewrittenHistories (t : list Event) : list (list Message) :=
  match t with
  | [] => []
  | EvNewMessages rewritten :: t' => rewritten :: rewrittenHistories t'
  | _ :: t' => rewrittenHistories t'
  end.

(** The texts given to the classifier in a trace. *)
Fixpoint classifyInputs (t : list Event) : list string :=
  match t with
  | [] => []
  | EvClassify input _ :: t' => input :: classifyInputs t'
  | _ :: t' => classifyInputs t'
  end.

(** A model call: the classifier or the completion chain. *)
Definition isModelCall (ev : Event) : bool :=
  match ev with
  | EvClassify _ _ => true
  | EvChainCall _ _ _ _ => true
  | _ => false
  end.

Definition isInsert (ev : Event) : bool :=
  match ev with
  | EvInsert _ _ => true
  | _ => false
  end.

(** A persona the spec accepts: attributes present, not empty, and every
    level among 0, 1, 2. *)
Definition usablePersona (res : PersonaFetch) : bool :=
  match attributeEntries (personaData res) with
  | Some (kv :: entries) =>
      forallb (fun kv => levelInRange (snd kv)) (kv :: entries)
  | _ => false
  end.

(** The imported [evaluateMessageAgainstRules] behaves as the spec says. *)
Definition evaluationAsSpecified (env : Env) : Prop :=
  forall message company user message_id rules,
    evaluateMessageAgainstRules env message company user message_id rules
    = Some (evaluateMessageAgainstRulesSpec message company user message_id rules).

(** No message of the history contains the original of one of the rules. *)
Definition freeOfOriginals (messages : list Message)
    (triggeredRules : list TriggeredRule) : bool :=
  forallb (fun message =>
             forallb (fun rule =>
                        negb (JSString.includes (content message) (original rule)))
                     triggeredRules)
          messages.

(** ** Scenarios *)

Module Scenario.

Definition persona : PersonaFetch :=
  {| personaData :=
       Some (mkPersonaRow (Some (mkPersona (Some [("formality", 1%Z)]))));
     personaError := None |}.

Definition parse (r : RawRule) : option BlockRule :=
  match raw_rule_id r, raw_rule_company_id r, raw_matcher r, raw_substitution r with
  | Some i, Some c, Some m, Some s => Some (mkBlockRule i c m s)
  | _, _, _, _ => None
  end.

Definition redact : RawRule :=
  mkRawRule (Some 7%Z) (Some "acme") (Some "secret123") (Some "[REDACTED]").

(** Scenario A: one rule that matches the inbound message, and every
    collaborator answers. *)
Definition envA : Env :=
  {| fetchPersona := fun _ => persona;
     createPersonaPrompt :=
       createPersonaPromptSpec (fun _ => "You are a helpful assistant.");
     chainSetup := fun _ => None;
     categorizePrompt :=
       fun _ => Some (mkCategorization "security" "low" ["password"]);
     fetchBlockRules := fun _ => RulesData [redact];
     BlockRuleSchema_parse := parse;
     insertChatMessage := fun _ table => InsertData (Z.of_nat (length table) + 1);
     evaluateMessageAgainstRules :=
       fun message company user message_id rules =>
         Some (evaluateMessageAgainstRulesSpec message company user message_id
                                               rules);
     chainCall := fun _ _ _ => CallResolves (Some (mkChainValues "Noted.")) |}.

Definition reqA : Request :=
  {| messages_in := [mkRawMessage (Some "m1") "user" "my password is secret123"];
     company_id := "acme";
     user_id := "u1";
     chat_block_id := "cb1" |}.

(** Scenario C: the classifier rejects. *)
Definition envC : Env :=
  {| fetchPersona := fetchPersona envA;
     createPersonaPrompt := createPersonaPrompt envA;
     chainSetup := chainSetup envA;
     categorizePrompt := fun _ => None;
     fetchBlockRules := fetchBlockRules envA;
     BlockRuleSchema_parse := parse;
     insertChatMessage := insertChatMessage envA;
     evaluateMessageAgainstRules := evaluateMessageAgainstRules envA;
     chainCall := chainCall envA |}.

(** Scenario D: the insert of the reply fails. *)
Definition envD : Env :=
  {| fetchPersona := fetchPersona envA;
     createPersonaPrompt := createPersonaPrompt envA;
     chainSetup := chainSetup envA;
     categorizePrompt := categorizePrompt envA;
     fetchBlockRules := fetchBlockRules envA;
     BlockRuleSchema_parse := parse;
     insertChatMessage :=
       fun row table =>
         match msg_type row with
         | USER => InsertData (Z.of_nat (length table) + 1)
         | BOT => InsertError "insert failed"
         end;
     evaluateMessageAgainstRules := evaluateMessageAgainstRules envA;
     chainCall := chainCall envA |}.

(** No rule is stored for the company. *)
Definition envNoRules : Env :=
  {| fetchPersona := fetchPersona envA;
     createPersonaPrompt := createPersonaPrompt envA;
     chainSetup := chainSetup envA;
     categorizePrompt := categorizePrompt envA;
     fetchBlockRules := fun _ => RulesData [];
     BlockRuleSchema_parse := parse;
     insertChatMessage := insertChatMessage envA;
     evaluateMessageAgainstRules := evaluateMessageAgainstRules envA;
     chainCall := chainCall envA |}.

(** The chat block has no persona. *)
Definition envNoPersona : Env :=
  {| fetchPersona := fun _ => mkPersonaFetch None (Some "no rows");
     createPersonaPrompt := createPersonaPrompt envA;
     chainSetup := chainSetup envA;
     categorizePrompt := categorizePrompt envA;
     fetchBlockRules := fetchBlockRules envA;
     BlockRuleSchema_parse := parse;
     insertChatMessage := insertChatMessage envA;
     evaluateMessageAgainstRules := evaluateMessageAgainstRules envA;
     chainCall := chainCall envA |}.

Definition rule (o s : string) : TriggeredRule :=
  {| original := o; substitution := s;
     triggered_rule_id := 1; triggering_message_id := 1 |}.

End Scenario.

(** ** More readings of a trace *)

(** The rows that the successful inserts of a trace stored, oldest first. *)
Fixpoint storedRows (t : list Event) : list ChatMessageRow :=
  match t with
  | [] => []
  | EvInsert row (InsertData id) :: t' => mkChatMessageRow id row :: storedRows t'
  | _ :: t' => storedRows t'
  end.

(** How many events of a trace are of one kind. *)
Definition countEvents (kind : Event -> bool) (t : list Event) : nat :=
  length (filter kind t).




Definition isEvaluate (ev : Event) : bool :=
  match ev with EvEvaluate _ _ _ _ => true | _ => false end.


(** The row the handler inserts for the inbound message (lines 107-116). *)
Definition inboundRow (incomingData : Request) (content category : string)
    : NewChatMessage :=
  {| msg_chat_block_id := chat_block_id incomingData;
     msg_content := content;
     msg_user_id := Some (user_id incomingData);
     msg_type := USER;
     msg_content_type := "TEXT";
     msg_category := category |}.

(** The row the handler inserts for the reply (lines 182-190). *)
Definition outboundRow (incomingData : Request) (reply category : string)
    : NewChatMessage :=
  {| msg_chat_block_id := chat_block_id incomingData;
     msg_content := reply;
     msg_user_id := None;
     msg_type := BOT;
     msg_content_type := "TEXT";
     msg_category := category |}.

(** The character [c] occurs in [s]. *)
Fixpoint hasChar (c : ascii) (s : string) : bool :=
  match s with
  | EmptyString => false
  | String d s' => Ascii.eqb d c || hasChar c s'
  end.

(** A replacement text without [$]: [GetSubstitution] has nothing to expand. *)
Definition plainText (s : string) : bool := negb (hasChar "$" s).

(** ** More scenarios *)

Module Cases.

(** The select on [block_rule] fails. *)
Definition envRulesError : Env :=
  {| fetchPersona := fetchPersona Scenario.envA;
     createPersonaPrompt := createPersonaPrompt Scenario.envA;
     chainSetup := chainSetup Scenario.envA;
     categorizePrompt := categorizePrompt Scenario.envA;
     fetchBlockRules := fun _ => RulesError "permission denied";
     BlockRuleSchema_parse := Scenario.parse;
     insertChatMessage := insertChatMessage Scenario.envA;
     evaluateMessageAgainstRules := evaluateMessageAgainstRules Scenario.envA;
     chainCall := chainCall Scenario.envA |}.

(** Every insert fails. *)
Definition envInsertFails : Env :=
  {| fetchPersona := fetchPersona Scenario.envA;
     createPersonaPrompt := createPersonaPrompt Scenario.envA;
     chainSetup := chainSetup Scenario.envA;
     categorizePrompt := categorizePrompt Scenario.envA;
     fetchBlockRules := fetchBlockRules Scenario.envA;
     BlockRuleSchema_parse := Scenario.parse;
     insertChatMessage := fun _ _ => InsertError "insert failed";
     evaluateMessageAgainstRules := evaluateMessageAgainstRules Scenario.envA;
     chainCall := chainCall Scenario.envA |}.

(** A stored rule without matcher, next to a well-formed one. *)
Definition noMatcher : RawRule :=
  mkRawRule (Some 8%Z) (Some "acme") None (Some "[REDACTED]").

Definition envBadRule : Env :=
  {| fetchPersona := fetchPersona Scenario.envA;
     createPersonaPrompt := createPersonaPrompt Scenario.envA;
     chainSetup := chainSetup Scenario.envA;
     categorizePrompt := categorizePrompt Scenario.envA;
     fetchBlockRules := fun _ => RulesData [Scenario.redact; noMatcher];
     BlockRuleSchema_parse := Scenario.parse;
     insertChatMessage := insertChatMessage Scenario.envA;
     evaluateMessageAgainstRules := evaluateMessageAgainstRules Scenario.envA;
     chainCall := chainCall Scenario.envA |}.

(** The completion call rejects. *)
Definition envChainRejects : Env :=
  {| fetchPersona := fetchPersona Scenario.envA;
     createPersonaPrompt := createPersonaPrompt Scenario.envA;
     chainSetup := chainSetup Scenario.envA;
     categorizePrompt := categorizePrompt Scenario.envA;
     fetchBlockRules := fetchBlockRules Scenario.envA;
     BlockRuleSchema_parse := Scenario.parse;
     insertChatMessage := insertChatMessage Scenario.envA;
     evaluateMessageAgainstRules := evaluateMessageAgainstRules Scenario.envA;
     chainCall := fun _ _ _ => CallRejects "timeout" |}.

(** The completion call resolves to a falsy value. *)
Definition envChainFalsy : Env :=
  {| fetchPersona := fetchPersona Scenario.envA;
     createPersonaPrompt := createPersonaPrompt Scenario.envA;
     chainSetup := chainSetup Scenario.envA;
     categorizePrompt := categorizePrompt Scenario.envA;
     fetchBlockRules := fetchBlockRules Scenario.envA;
     BlockRuleSchema_parse := Scenario.parse;
     insertChatMessage := insertChatMessage Scenario.envA;
     evaluateMessageAgainstRules := evaluateMessageAgainstRules Scenario.envA;
     chainCall := fun _ _ _ => CallResolves None |}.

(** The persona select reports an error next to its row. *)
Definition envPersonaWarning : Env :=
  {| fetchPersona :=
       fun _ => mkPersonaFetch (personaData Scenario.persona) (Some "warning");
     createPersonaPrompt := createPersonaPrompt Scenario.envA;
     chainSetup := chainSetup Scenario.envA;
     categorizePrompt := categorizePrompt Scenario.envA;
     fetchBlockRules := fetchBlockRules Scenario.envA;
     BlockRuleSchema_parse := Scenario.parse;
     insertChatMessage := insertChatMessage Scenario.envA;
     evaluateMessageAgainstRules := evaluateMessageAgainstRules Scenario.envA;
     chainCall := chainCall Scenario.envA |}.

(** The completion call resolves to [undefined]. *)
Definition envChainUndefined : Env :=
  {| fetchPersona := fetchPersona Scenario.envA;
     createPersonaPrompt := createPersonaPrompt Scenario.envA;
     chainSetup := chainSetup Scenario.envA;
     categorizePrompt := categorizePrompt Scenario.envA;
     fetchBlockRules := fetchBlockRules Scenario.envA;
     BlockRuleSchema_parse := Scenario.parse;
     insertChatMessage := insertChatMessage Scenario.envA;
     evaluateMessageAgainstRules := evaluateMessageAgainstRules Scenario.envA;
     chainCall := fun _ _ _ => CallResolvesUndefined |}.

(** A persona with a level outside 0, 1, 2. *)
Definition personaLevel7 : PersonaFetch :=
  {| personaData :=
       Some (mkPersonaRow (Some (mkPersona (Some [("formality", 7%Z)]))));
     personaError := None |}.

(** That persona, with [createPersonaPrompt] as the spec describes it. *)
Definition envBadPersona : Env :=
  {| fetchPersona := fun _ => personaLevel7;
     createPersonaPrompt := createPersonaPrompt Scenario.envA;
     chainSetup := chainSetup Scenario.envA;
     categorizePrompt := categorizePrompt Scenario.envA;
     fetchBlockRules := fetchBlockRules Scenario.envA;
     BlockRuleSchema_parse := Scenario.parse;
     insertChatMessage := insertChatMessage Scenario.envA;
     evaluateMessageAgainstRules := evaluateMessageAgainstRules Scenario.envA;
     chainCall := chainCall Scenario.envA |}.

(** That persona, with a [createPersonaPrompt] that returns a prompt for
    every attribute set. *)
Definition envLenientPrompt : Env :=
  {| fetchPersona := fun _ => personaLevel7;
     createPersonaPrompt := fun _ => Some "You are a helpful assistant.";
     chainSetup := chainSetup Scenario.envA;
     categorizePrompt := categorizePrompt Scenario.envA;
     fetchBlockRules := fetchBlockRules Scenario.envA;
     BlockRuleSchema_parse := Scenario.parse;
     insertChatMessage := insertChatMessage Scenario.envA;
     evaluateMessageAgainstRules := evaluateMessageAgainstRules Scenario.envA;
     chainCall := chainCall Scenario.envA |}.

(** A request without messages. *)
Definition reqEmpty : Request :=
  {| messages_in := [];
     company_id := "acme";
     user_id := "u1";
     chat_block_id := "cb1" |}.

(** A request with two earlier messages and the inbound one. *)
Definition reqThree : Request :=
  {| messages_in :=
       [mkRawMessage (Some "m1") "user" "hello";
        mkRawMessage (Some "m2") "assistant" "Hi, how can I help?";
        mkRawMessage (Some "m3") "user" "my password is secret123"];
     company_id := "acme";
     user_id := "u1";
     chat_block_id := "cb1" |}.

End Cases.

(** ** Facts on the string operations *)
Section StringFacts.
Import JSString.

(** Appending the empty string changes nothing. *)
Lemma append_empty_r (s : string) : s ++ EmptyString = s.
Proof. induction s as [|c s IH]; simpl; [reflexivity | now rewrite IH]. Qed.

(** Concatenation is associative. *)
Lemma append_assoc (a b c : string) : (a ++ b) ++ c = a ++ b ++ c.
Proof. induction a as [|x a IH]; simpl; [reflexivity | now rewrite IH]. Qed.

(** The length of a concatenation. *)
Lemma length_append (a b : string) :
  String.length (a ++ b) = String.length a + String.length b.
Proof. induction a as [|x a IH]; simpl; [reflexivity | now rewrite IH]. Qed.

(** [startsWith s p] holds exactly when [s] is [p] followed by some text. *)
Lemma startsWith_iff (s p : string) :
  startsWith s p = true <-> exists t, s = p ++ t.
Proof.
  revert s. induction p as [|a p IH]; intros s; simpl.
  - split; [intros _; now exists s | reflexivity].
  - destruct s as [|b s].
    + split; [discriminate | intros [t H]; discriminate].
    + rewrite andb_true_iff, Ascii.eqb_eq, IH. split.
      * intros [-> [t ->]]. now exists t.
      * intros [t H]. injection H as -> ->. split; [reflexivity | now exists t].
Qed.

(** An index found by [StringIndexOf] is the length of a text before an
    occurrence of the pattern. *)
Lemma StringIndexOf_Some (s p : string) (i : nat) :
  StringIndexOf s p = Some i ->
  exists pre post, s = pre ++ p ++ post /\ String.length pre = i.
Proof.
  revert i. induction s as [|c s IH]; intros i; simpl.
  - destruct (startsWith EmptyString p) eqn:E; [|discriminate].
    intros [= <-]. apply startsWith_iff in E as [t E]. now exists EmptyString, t.
  - destruct (startsWith (String c s) p) eqn:E.
    + intros [= <-]. apply startsWith_iff in E as [t E]. now exists EmptyString, t.
    + destruct (StringIndexOf s p) as [j|]; [|discriminate].
      simpl. intros [= <-]. destruct (IH j eq_refl) as (pre & post & -> & <-).
      now exists (String c pre), post.
Qed.

(** When [StringIndexOf] finds nothing, the pattern occurs nowhere. *)
Lemma StringIndexOf_None (s p : string) :
  StringIndexOf s p = None -> forall pre post, s <> pre ++ p ++ post.
Proof.
  induction s as [|c s IH]; simpl.
  - destruct (startsWith EmptyString p) eqn:E; [discriminate|].
    intros _ pre post H. destruct pre; simpl in H.
    + assert (startsWith EmptyString p = true) by (apply startsWith_iff; now exists post).
      congruence.
    + discriminate.
  - destruct (startsWith (String c s) p) eqn:E; [discriminate|].
    destruct (StringIndexOf s p) eqn:F; [discriminate|].
    intros _ pre post H. destruct pre as [|c' pre]; simpl in H.
    + assert (startsWith (String c s) p = true) by (apply startsWith_iff; now exists post).
      congruence.
    + injection H as _ H. now apply (IH eq_refl pre post).
Qed.

(** [includes s p] holds exactly when [p] is a substring of [s]. *)
Lemma includes_iff (s p : string) :
  includes s p = true <-> exists pre post, s = pre ++ p ++ post.
Proof.
  unfold includes. destruct (StringIndexOf s p) eqn:E.
  - split; [intros _ | reflexivity].
    destruct (StringIndexOf_Some _ _ _ E) as (pre & post & H & _). now exists pre, post.
  - split; [discriminate|]. intros (pre & post & H).
    now destruct (StringIndexOf_None _ _ E pre post).
Qed.

(** The first [length a] characters of [a ++ b]. *)
Lemma substring_prefix (a b : string) :
  substring 0 (String.length a) (a ++ b) = a.
Proof. induction a as [|x a IH]; simpl; [now destruct b | now rewrite IH]. Qed.

(** The whole string as a substring of itself. *)
Lemma substring_all (s : string) : substring 0 (String.length s) s = s.
Proof. induction s as [|x a IH]; simpl; [reflexivity | now rewrite IH]. Qed.

(** The characters of [a ++ b] after [a]. *)
Lemma substring_suffix (a b : string) :
  substring (String.length a) (String.length b) (a ++ b) = b.
Proof. induction a as [|x a IH]; simpl; [apply substring_all | exact IH]. Qed.

(** [replace] returns its subject when the pattern does not occur. *)
Lemma replace_absent (s p r : string) :
  includes s p = false -> replace s p r = s.
Proof.
  unfold includes, replace. now destruct (StringIndexOf s p).
Qed.

(** [replace] rewrites the occurrence [StringIndexOf] finds, the first one,
    and keeps the text before and after it. *)
Lemma replace_first (s p r : string) (i : nat) :
  StringIndexOf s p = Some i ->
  exists pre post,
    s = pre ++ p ++ post /\ String.length pre = i /\
    replace s p r = pre ++ GetSubstitution p s i r ++ post.
Proof.
  intros H. unfold replace. rewrite H.
  destruct (StringIndexOf_Some _ _ _ H) as (pre & post & E & L).
  exists pre, post. split; [exact E|]. split; [exact L|].
  unfold substringFromTo. rewrite Nat.sub_0_r.
  f_equal.
  - rewrite E, <- L. apply substring_prefix.
  - f_equal. rewrite E at 1 2. rewrite <- L.
    rewrite <- append_assoc, <- length_append.
    replace (String.length ((pre ++ p) ++ post) - String.length (pre ++ p))
      with (String.length post) by (rewrite length_append; lia).
    apply substring_suffix.
Qed.

End StringFacts.

(** ** The rewrite of the history *)

Section Rewrite.

(** The first rule is applied first, the others to what it leaves. *)
Lemma applyTriggeredRules_cons (rule : TriggeredRule) (rules : list TriggeredRule)
    (c : string) :
  applyTriggeredRules (rule :: rules) c
  = applyTriggeredRules rules
      (JSString.replace c (original rule) (substitution rule)).
Proof. reflexivity. Qed.

(** Rules of a second list are applied after those of the first. *)
Lemma applyTriggeredRules_app (rules1 rules2 : list TriggeredRule) (c : string) :
  applyTriggeredRules (rules1 ++ rules2) c
  = applyTriggeredRules rules2 (applyTriggeredRules rules1 c).
Proof. apply fold_left_app. Qed.

(** The rewrite keeps the number of messages. *)
Lemma newMessages_length (messages : list Message) (rules : list TriggeredRule) :
  length (newMessages messages rules) = length messages.
Proof. apply length_map. Qed.

(** Every message of the history, at any position, keeps its role and has
    every rule applied to its content, in the order of the rules. *)
Lemma newMessages_nth (messages : list Message) (rules : list TriggeredRule)
    (n : nat) (message : Message) :
  nth_error messages n = Some message ->
  nth_error (newMessages messages rules) n
  = Some {| role := role message;
            content := applyTriggeredRules rules (content message) |}.
Proof.
  intros H. unfold newMessages. now rewrite nth_error_map, H.
Qed.

(** A content in which no original occurs is left as it is. *)
Lemma applyTriggeredRules_absent (rules : list TriggeredRule) (c : string) :
  forallb (fun rule => negb (JSString.includes c (original rule))) rules = true ->
  applyTriggeredRules rules c = c.
Proof.
  induction rules as [|rule rules IH]; [reflexivity|].
  cbn [forallb]. rewrite andb_true_iff, negb_true_iff. intros [Hrule Hrules].
  rewrite applyTriggeredRules_cons, replace_absent by exact Hrule.
  now apply IH.
Qed.

(** A history in which no original occurs is left as it is. *)
Lemma newMessages_absent (messages : list Message) (rules : list TriggeredRule) :
  freeOfOriginals messages rules = true ->
  newMessages messages rules = messages.
Proof.
  unfold freeOfOriginals, newMessages.
  induction messages as [|[r c] messages IH]; simpl; [reflexivity|].
  rewrite andb_true_iff. intros [Hc Hrest].
  now rewrite applyTriggeredRules_absent, IH.
Qed.

(** Without rules the rewrite returns the history it was given. *)
Lemma newMessages_nil (messages : list Message) :
  newMessages messages [] = messages.
Proof. apply newMessages_absent. unfold freeOfOriginals. induction messages; simpl; auto. Qed.

End Rewrite.

(** C2, on the code: [String.prototype.replace] with a string pattern
    rewrites the first occurrence only.  On a message that holds the original
    twice, the rewrite of the handler replaces the first and leaves the
    second in the content. *)
Theorem C2_rewrite_leaves_second_occurrence :
  newMessages [mkMessage "user" "secret123 and again secret123"]
              [Scenario.rule "secret123" "[REDACTED]"]
  = [mkMessage "user" "[REDACTED] and again secret123"]
  /\ JSString.includes "[REDACTED] and again secret123" "secret123" = true.
Proof. split; reflexivity. Qed.

(** C5, as stated, fails: with a rule whose substitution contains its
    original ("a" to "aa"), the rewrite of the rewritten history differs from
    the rewritten history. *)
Lemma C5_rewrite_twice_differs :
  newMessages (newMessages [mkMessage "user" "a"] [Scenario.rule "a" "aa"])
              [Scenario.rule "a" "aa"]
  <> newMessages [mkMessage "user" "a"] [Scenario.rule "a" "aa"].
Proof. vm_compute. discriminate. Qed.

(** C5, amended: when no message of the rewritten history contains the
    original of a triggered rule, the rewrite of the rewritten history with
    the same rules returns the rewritten history. *)
Theorem C5_rewrite_again_is_noop (messages : list Message)
    (rules : list TriggeredRule) :
  freeOfOriginals (newMessages messages rules) rules = true ->
  newMessages (newMessages messages rules) rules = newMessages messages rules.
Proof. apply newMessages_absent. Qed.

(** The amended C5 in scenario A. *)
Lemma C5_rewrite_again_is_noop_witness :
  freeOfOriginals
    (newMessages [mkMessage "user" "my password is secret123"]
                 [Scenario.rule "secret123" "[REDACTED]"])
    [Scenario.rule "secret123" "[REDACTED]"] = true
  /\ newMessages
       (newMessages [mkMessage "user" "my password is secret123"]
                    [Scenario.rule "secret123" "[REDACTED]"])
       [Scenario.rule "secret123" "[REDACTED]"]
     = [mkMessage "user" "my password is [REDACTED]"].
Proof.
  split; [reflexivity|].
  rewrite (C5_rewrite_again_is_noop
             [mkMessage "user" "my password is secret123"]
             [Scenario.rule "secret123" "[REDACTED]"]); reflexivity.
Defined.

(** Scenario B of the spec: "foo" to "bar", then "bar" to "baz", on "foo". *)
Example scenarioB_sequential :
  newMessages [mkMessage "user" "foo"]
              [Scenario.rule "foo" "bar"; Scenario.rule "bar" "baz"]
  = [mkMessage "user" "baz"].
Proof. reflexivity. Qed.

(** ** Running the handler *)

(** Reading an index of a mapped array. *)
Lemma index_map {A B} (f : A -> B) (xs : list A) (i : Z) :
  index (map f xs) i = option_map f (index xs i).
Proof. unfold index. destruct (i <? 0)%Z; [reflexivity | apply nth_error_map]. Qed.

(** The array of messages is as long as the array of the request. *)
Lemma lastIndex_map {A B} (f : A -> B) (xs : list A) :
  lastIndex (map f xs) = lastIndex xs.
Proof. unfold lastIndex. now rewrite length_map. Qed.

(** Unfolds the handler in [H : POST env req table = (outcome, w)]. *)
Ltac unfold_POST H :=
  unfold POST, POST_body in H;
  cbv [bind emit ret throw respond insert member] in H;
  cbn [chat_message trace app] in H;
  rewrite ?index_map, ?lastIndex_map in H;
  repeat match type of H with
    | context [index (messages_in ?r) (lastIndex (messages_in ?r))] =>
        change (index (messages_in r) (lastIndex (messages_in r)))
          with (inboundMessage r) in H
    end.

(** Splits on the answer the next statement of the handler depends on. *)
Ltac branch H :=
  match type of H with
  | context [match ?x with _ => _ end] =>
      lazymatch x with
      | context [match _ with _ => _ end] => fail
      | _ => destruct x eqn:?
      end
  end;
  cbn [chat_message trace option_map app] in H.

(** Runs the handler to each of its ends. *)
Ltac run_POST H :=
  unfold_POST H; repeat branch H;
  injection H as <- <-; cbn [trace chat_message].

(** Finds the events of a literal trace that [H : In ev trace] can be. *)
Ltac pick_event H :=
  cbn [In] in H;
  repeat match type of H with
    | _ \/ _ => destruct H as [H | H]
    end;
  first [ contradiction
        | discriminate H
        | injection H as; subst
        | subst ].

(** Cuts a literal trace at its insert with result [InsertData]: the goal is
    [exists before after row, trace = before ++ EvInsert row _ :: after /\ _]. *)
Ltac split_trace_at k :=
  match goal with
  | |- exists before after row, ?t = _ /\ _ =>
      exists (firstn k t), (skipn (S k) t); cbn [firstn skipn];
      eexists; split; [reflexivity|]
  end.

Ltac split_trace :=
  first [ split_trace_at 5 | split_trace_at 6 | split_trace_at 7
        | split_trace_at 8 | split_trace_at 9 ].

(** Shows that a literal trace holds an event. *)
Ltac in_trace := vm_compute; repeat (first [left; reflexivity | right]).

(** Every completion call of a run is given the chat history and the input
    of the request as they came in: the rewritten copy is not among its
    arguments. *)
Lemma chainCall_receives_request_text (env : Env) (incomingData : Request)
    (table : list ChatMessageRow) (outcome : Outcome) (w : World)
    (template chat_history input : string) (res : CallResult) :
  POST env incomingData table = (outcome, w) ->
  In (EvChainCall template chat_history input res) (trace w) ->
  chat_history
  = JSString.join nl (map formatMessage (sliceButLast (messages_in incomingData)))
  /\ exists raw, inboundMessage incomingData = Some raw /\ input = raw_content raw.
Proof.
  intros H. run_POST H; intros Hev; pick_event Hev.
  all: split; [reflexivity | eauto].
Qed.

(** C1, on the code: in scenario A the rule triggers and the rewritten copy
    of the history reads "my password is [REDACTED]", and the completion call
    is given the input "my password is secret123". *)
Theorem C1_completion_call_gets_unrewritten_input :
  rewrittenHistories (trace (snd (POST Scenario.envA Scenario.reqA [])))
  = [[mkMessage "user" "my password is [REDACTED]"]]
  /\ chainInputs (trace (snd (POST Scenario.envA Scenario.reqA [])))
     = [(EmptyString, "my password is secret123")].
Proof. split; vm_compute; reflexivity. Qed.

(** C3, as stated, fails: in scenario D the completion call resolves to the
    reply "Noted.", the insert of the reply fails, and the handler returns
    nothing instead of the reply. *)
Lemma C3_reply_not_returned_in_scenario_D :
  chainInputs (trace (snd (POST Scenario.envD Scenario.reqA [])))
  = [(EmptyString, "my password is secret123")]
  /\ In (EvInsert (mkNewChatMessage "cb1" "Noted." None BOT "TEXT" "security")
                  (InsertError "insert failed"))
        (trace (snd (POST Scenario.envD Scenario.reqA [])))
  /\ fst (POST Scenario.envD Scenario.reqA []) = Responded ReturnUndefined
  /\ fst (POST Scenario.envD Scenario.reqA [])
     <> Responded (ReturnJson (Some (mkChainValues "Noted."))).
Proof.
  split; [vm_compute; reflexivity|].
  split; [in_trace|].
  split; [vm_compute; reflexivity | vm_compute; discriminate].
Qed.

(** C3, amended: when the insert of the outbound (BOT) message fails, the
    completion call had resolved to the reply that was to be stored, the
    error is written to the console, and the handler returns without a
    value: the reply is not returned. *)
Theorem C3_outbound_failure_returns_nothing (env : Env) (incomingData : Request)
    (table : list ChatMessageRow) (outcome : Outcome) (w : World)
    (row : NewChatMessage) (e : string) :
  POST env incomingData table = (outcome, w) ->
  In (EvInsert row (InsertError e)) (trace w) ->
  msg_type row = BOT ->
  outcome = Responded ReturnUndefined
  /\ In (EvConsoleError (Some e)) (trace w)
  /\ exists template chat_history input values,
       In (EvChainCall template chat_history input (CallResolves (Some values)))
          (trace w)
       /\ msg_content row = text values.
Proof.
  intros H. run_POST H; intros Hev; pick_event Hev.
  all: cbn [msg_type msg_content]; intros Hty; try discriminate Hty.
  all: split; [reflexivity|]; split; [cbn; tauto|].
  all: do 4 eexists; split; [|reflexivity]; cbn; tauto.
Qed.

(** The amended C3 in scenario D. *)
Lemma C3_outbound_failure_returns_nothing_witness :
  fst (POST Scenario.envD Scenario.reqA []) = Responded ReturnUndefined
  /\ In (EvConsoleError (Some "insert failed"))
        (trace (snd (POST Scenario.envD Scenario.reqA []))).
Proof.
  destruct (C3_outbound_failure_returns_nothing
              Scenario.envD Scenario.reqA []
              (fst (POST Scenario.envD Scenario.reqA []))
              (snd (POST Scenario.envD Scenario.reqA []))
              (mkNewChatMessage "cb1" "Noted." None BOT "TEXT" "security")
              "insert failed")
    as (Hout & Hlog & _).
  - vm_compute. reflexivity.
  - in_trace.
  - reflexivity.
  - split; [exact Hout | exact Hlog].
Defined.

(** C4: the rows a turn adds to [chat_message] are appended to the table,
    and an added USER row holds the content of the inbound message of the
    request, whatever rules trigger. *)
Theorem C4_inbound_row_holds_received_content (env : Env) (incomingData : Request)
    (table : list ChatMessageRow) (outcome : Outcome) (w : World) :
  POST env incomingData table = (outcome, w) ->
  exists added,
    chat_message w = (table ++ added)%list
    /\ forall row, In row added -> msg_type (row_message row) = USER ->
         exists raw, inboundMessage incomingData = Some raw
                     /\ msg_content (row_message row) = raw_content raw.
Proof.
  intros H. run_POST H.
  all: rewrite <- ?app_assoc; cbn [app].
  all: first [ eexists; split; [reflexivity|]
             | exists []; split; [symmetry; apply app_nil_r|] ].
  all: intros row Hrow; pick_event Hrow; cbn; intros Hty;
       first [discriminate Hty | eauto].
Qed.

(** C4 in scenario A: the rule triggers, and the stored USER row still holds
    the text as it was received. *)
Lemma C4_inbound_row_holds_received_content_witness :
  exists added,
    chat_message (snd (POST Scenario.envA Scenario.reqA [])) = added
    /\ forall row, In row added -> msg_type (row_message row) = USER ->
         msg_content (row_message row) = "my password is secret123".
Proof.
  destruct (C4_inbound_row_holds_received_content
              Scenario.envA Scenario.reqA []
              (fst (POST Scenario.envA Scenario.reqA []))
              (snd (POST Scenario.envA Scenario.reqA []))) as (added & Hadd & Hrows).
  - vm_compute. reflexivity.
  - exists added. split; [exact Hadd|].
    intros row Hin Hty. destruct (Hrows row Hin Hty) as (raw & Hraw & ->).
    vm_compute in Hraw. now injection Hraw as <-.
Defined.

(** C6, as stated, fails: in scenario A every call succeeds, and the block
    rules are fetched before the inbound message is inserted, which is not
    the order in which the spec lists the states. *)
Lemma C6_rules_are_fetched_before_inbound_insert :
  stages (trace (snd (POST Scenario.envA Scenario.reqA [])))
  = [Received; Classified; RulesFetched; InboundPersisted; RulesEvaluated;
     HistoryRewritten; CompletionInvoked; OutboundPersisted; Done]
  /\ forwardOnly specRank
       (stages (trace (snd (POST Scenario.envA Scenario.reqA [])))) = false.
Proof. split; vm_compute; reflexivity. Qed.

(** C6, amended: the states a turn reaches follow the order Received,
    Classified, RulesFetched, InboundPersisted, RulesEvaluated,
    HistoryRewritten, CompletionInvoked, OutboundPersisted, Done, each at
    most once and none gone back to; and the rules are evaluated with the
    identifier that the insert of the inbound message returned. *)
Theorem C6_states_follow_the_statements (env : Env) (incomingData : Request)
    (table : list ChatMessageRow) (outcome : Outcome) (w : World) :
  POST env incomingData table = (outcome, w) ->
  forwardOnly codeRank (stages (trace w)) = true
  /\ forall message mid rules res,
       In (EvEvaluate message mid rules res) (trace w) ->
       exists before after row,
         trace w = (before ++ EvInsert row (InsertData mid) :: after)%list
         /\ In (EvEvaluate message mid rules res) after
         /\ msg_type row = USER
         /\ msg_content row = content message
         /\ exists rows,
              In (EvRulesFetch (company_id incomingData) (RulesData rows)) before.
Proof.
  intros H. run_POST H.
  all: split; [reflexivity|].
  all: intros message mid prules res Hev; pick_event Hev.
  all: split_trace; cbn; eauto 20.
Qed.

(** The amended C6 in scenario A. *)
Lemma C6_states_follow_the_statements_witness :
  forwardOnly codeRank
    (stages (trace (snd (POST Scenario.envA Scenario.reqA [])))) = true
  /\ exists before after row,
       trace (snd (POST Scenario.envA Scenario.reqA []))
       = (before ++ EvInsert row (InsertData 1) :: after)%list
       /\ msg_type row = USER
       /\ exists rows, In (EvRulesFetch "acme" (RulesData rows)) before.
Proof.
  destruct (C6_states_follow_the_statements
              Scenario.envA Scenario.reqA []
              (fst (POST Scenario.envA Scenario.reqA []))
              (snd (POST Scenario.envA Scenario.reqA []))) as (Hord & Hid).
  - vm_compute. reflexivity.
  - split; [exact Hord|].
    destruct (Hid (mkMessage "user" "my password is secret123") 1%Z
                  [mkBlockRule 7 "acme" "secret123" "[REDACTED]"]
                  (Some [mkTriggeredRule "secret123" "[REDACTED]" 7 1]))
      as (before & after & row & Htr & _ & Hty & _ & Hrules).
    + in_trace.
    + exists before, after, row. split; [exact Htr|]. split; [exact Hty | exact Hrules].
Defined.

(** C7: when the classifier call fails, the handler throws, the table
    [chat_message] is as it was, and no insert was attempted. *)
Theorem C7_classifier_failure_aborts (env : Env) (incomingData : Request)
    (table : list ChatMessageRow) (outcome : Outcome) (w : World)
    (input : string) :
  POST env incomingData table = (outcome, w) ->
  In (EvClassify input None) (trace w) ->
  outcome = Threw (Rejected "categorizePrompt")
  /\ chat_message w = table
  /\ existsb isInsert (trace w) = false.
Proof.
  intros H. run_POST H; intros Hev; pick_event Hev.
  all: cbn; auto.
Qed.

(** C7 in scenario C. *)
Lemma C7_classifier_failure_aborts_witness :
  fst (POST Scenario.envC Scenario.reqA []) = Threw (Rejected "categorizePrompt")
  /\ chat_message (snd (POST Scenario.envC Scenario.reqA [])) = []
  /\ existsb isInsert (trace (snd (POST Scenario.envC Scenario.reqA []))) = false.
Proof.
  apply (C7_classifier_failure_aborts
           Scenario.envC Scenario.reqA []
           (fst (POST Scenario.envC Scenario.reqA []))
           (snd (POST Scenario.envC Scenario.reqA []))
           "my password is secret123").
  - vm_compute. reflexivity.
  - in_trace.
Defined.

(** C8, as stated, fails: for a chat block without persona the handler
    writes the error of the select to the console and goes on to
    [Object.entries], which throws a [TypeError]; the handler raises no
    configuration error. *)
Lemma C8_missing_persona_throws_TypeError :
  usablePersona (fetchPersona Scenario.envNoPersona (chat_block_id Scenario.reqA))
  = false
  /\ fst (POST Scenario.envNoPersona Scenario.reqA []) = Threw TypeError
  /\ fst (POST Scenario.envNoPersona Scenario.reqA []) <> Threw ConfigurationError.
Proof.
  split; [reflexivity|].
  split; [vm_compute; reflexivity | vm_compute; discriminate].
Qed.

(** The handler checks no attribute level itself: with a
    [createPersonaPrompt] that returns a prompt for every attribute set, a
    persona with level 7 does not stop the turn, which calls the completion
    chain and answers with the reply. *)
Lemma handler_checks_no_persona_level :
  usablePersona (fetchPersona Cases.envLenientPrompt (chat_block_id Scenario.reqA))
  = false
  /\ fst (POST Cases.envLenientPrompt Scenario.reqA [])
     = Responded (ReturnJson (Some (mkChainValues "Noted.")))
  /\ chainInputs (trace (snd (POST Cases.envLenientPrompt Scenario.reqA [])))
     = [(EmptyString, "my password is secret123")].
Proof. repeat split; vm_compute; reflexivity. Qed.

(** C8, amended: a persona without attributes to read (no row, no joined
    persona or no attributes) makes the handler throw a [TypeError], after
    the error of the select was written to the console when no row came
    back; attributes that [createPersonaPrompt] refuses make the handler
    throw the error of that function.  In both cases the turn ends before
    the classifier and the completion chain are called, no insert is
    attempted and the table is as it was. *)
Theorem C8_persona_failure_throws_before_model_calls (env : Env)
    (incomingData : Request) (table : list ChatMessageRow) (outcome : Outcome)
    (w : World) :
  POST env incomingData table = (outcome, w) ->
  (attributeEntries (personaData (fetchPersona env (chat_block_id incomingData)))
   = None ->
     outcome = Threw TypeError
     /\ existsb isModelCall (trace w) = false
     /\ existsb isInsert (trace w) = false
     /\ chat_message w = table)
  /\ (personaData (fetchPersona env (chat_block_id incomingData)) = None ->
        In (EvConsoleError
              (personaError (fetchPersona env (chat_block_id incomingData))))
           (trace w))
  /\ (forall entries,
        attributeEntries
          (personaData (fetchPersona env (chat_block_id incomingData)))
        = Some entries ->
        createPersonaPrompt env entries = None ->
        outcome = Threw ConfigurationError
        /\ existsb isModelCall (trace w) = false
        /\ existsb isInsert (trace w) = false
        /\ chat_message w = table).
Proof.
  intros H. split; [|split].
  - intros Hnone. unfold_POST H. rewrite Hnone in H.
    repeat branch H; injection H as <- <-; cbn; auto.
  - intros Hdata. unfold_POST H. rewrite Hdata in H.
    cbn [isSome negb attributeEntries] in H. rewrite orb_true_r in H.
    injection H as <- <-. cbn [trace In]. auto.
  - intros entries Hsome Hrefused. unfold_POST H. rewrite Hsome, Hrefused in H.
    repeat branch H; injection H as <- <-; cbn; auto.
Qed.

(** The amended C8 for a chat block without persona, and for a persona with
    a level that the [createPersonaPrompt] of the spec refuses. *)
Lemma C8_persona_failure_throws_before_model_calls_witness :
  (fst (POST Scenario.envNoPersona Scenario.reqA []) = Threw TypeError
   /\ existsb isModelCall
        (trace (snd (POST Scenario.envNoPersona Scenario.reqA []))) = false
   /\ existsb isInsert
        (trace (snd (POST Scenario.envNoPersona Scenario.reqA []))) = false
   /\ chat_message (snd (POST Scenario.envNoPersona Scenario.reqA [])) = [])
  /\ In (EvConsoleError (Some "no rows"))
        (trace (snd (POST Scenario.envNoPersona Scenario.reqA [])))
  /\ (fst (POST Cases.envBadPersona Scenario.reqA []) = Threw ConfigurationError
      /\ existsb isModelCall
           (trace (snd (POST Cases.envBadPersona Scenario.reqA []))) = false
      /\ existsb isInsert
           (trace (snd (POST Cases.envBadPersona Scenario.reqA []))) = false
      /\ chat_message (snd (POST Cases.envBadPersona Scenario.reqA [])) = []).
Proof.
  destruct (C8_persona_failure_throws_before_model_calls
              Scenario.envNoPersona Scenario.reqA []
              (fst (POST Scenario.envNoPersona Scenario.reqA []))
              (snd (POST Scenario.envNoPersona Scenario.reqA [])))
    as (Hmissing & Hlogged & _); [vm_compute; reflexivity|].
  destruct (C8_persona_failure_throws_before_model_calls
              Cases.envBadPersona Scenario.reqA []
              (fst (POST Cases.envBadPersona Scenario.reqA []))
              (snd (POST Cases.envBadPersona Scenario.reqA [])))
    as (_ & _ & Hrefused); [vm_compute; reflexivity|].
  split; [apply Hmissing; reflexivity|].
  split; [apply Hlogged; reflexivity|].
  apply (Hrefused [("formality", 7%Z)]); reflexivity.
Defined.

(** C9: with [evaluateMessageAgainstRules] as the spec describes it, when
    the rule set fetched for the company is empty, the rules evaluated and
    the triggered rules are empty, no trigger is logged, and the rewritten
    history is the history of the request, message by message. *)
Theorem C9_no_rules_no_rewrite (env : Env) (incomingData : Request)
    (table : list ChatMessageRow) (outcome : Outcome) (w : World) :
  evaluationAsSpecified env ->
  POST env incomingData table = (outcome, w) ->
  fetchBlockRules env (company_id incomingData) = RulesData [] ->
  (forall message message_id rules res,
      In (EvEvaluate message message_id rules res) (trace w) ->
      rules = [] /\ res = Some [])
  /\ (forall message triggered company user,
        ~ In (EvApiLog (CHAT_MESSAGE_BLOCK_RULE_TRIGGERED message triggered
                          company user)) (trace w))
  /\ (forall rewritten,
        In (EvNewMessages rewritten) (trace w) ->
        rewritten = map toMessage (messages_in incomingData)).
Proof.
  intros Hspec H Hrules. unfold_POST H. rewrite Hrules in H.
  cbn [mapOption] in H.
  repeat branch H; injection H as <- <-; cbn [trace chat_message].
  all: repeat match goal with
         | E : evaluateMessageAgainstRules _ _ _ _ _ _ = _ |- _ =>
             rewrite Hspec in E; cbn in E;
             first [discriminate E | injection E as <-]
         | E : Nat.ltb 0 (length []) = true |- _ => discriminate E
         end.
  all: rewrite ?newMessages_nil.
  all: split; [|split].
  all: try (intros message mid prules res Hev; pick_event Hev; auto).
  all: try (intros message triggered company user Hev; pick_event Hev).
  all: intros rewritten Hev; pick_event Hev; reflexivity.
Qed.

(** C9 for a company without rules. *)
Lemma C9_no_rules_no_rewrite_witness :
  fetchBlockRules Scenario.envNoRules (company_id Scenario.reqA) = RulesData []
  /\ In (EvNewMessages [mkMessage "user" "my password is secret123"])
        (trace (snd (POST Scenario.envNoRules Scenario.reqA [])))
  /\ [mkMessage "user" "my password is secret123"]
     = map toMessage (messages_in Scenario.reqA).
Proof.
  split; [reflexivity|]. split; [in_trace|].
  destruct (C9_no_rules_no_rewrite
              Scenario.envNoRules Scenario.reqA []
              (fst (POST Scenario.envNoRules Scenario.reqA []))
              (snd (POST Scenario.envNoRules Scenario.reqA [])))
    as (_ & _ & Hrew).
  - intros message company user message_id rules. reflexivity.
  - vm_compute. reflexivity.
  - reflexivity.
  - apply Hrew. in_trace.
Defined.

(** C10: an outbound (BOT) row that a turn adds to [chat_message] has the
    category that the classifier returned for the content of the inbound
    message; the classifier is called at most once in a turn, on that
    content, and the reply is not given to it. *)
Theorem C10_outbound_row_has_inbound_category (env : Env) (incomingData : Request)
    (table : list ChatMessageRow) (outcome : Outcome) (w : World) :
  POST env incomingData table = (outcome, w) ->
  (exists added,
     chat_message w = (table ++ added)%list
     /\ forall row, In row added -> msg_type (row_message row) = BOT ->
          exists raw c,
            inboundMessage incomingData = Some raw
            /\ categorizePrompt env (raw_content raw) = Some c
            /\ msg_category (row_message row) = category c)
  /\ (classifyInputs (trace w) = []
      \/ exists raw, inboundMessage incomingData = Some raw
                     /\ classifyInputs (trace w) = [raw_content raw]).
Proof.
  intros H. run_POST H.
  all: split; [|cbn; eauto].
  all: rewrite <- ?app_assoc; cbn [app].
  all: first [ eexists; split; [reflexivity|]
             | exists []; split; [symmetry; apply app_nil_r|] ].
  all: intros row Hrow; pick_event Hrow; cbn; intros Hty;
       first [discriminate Hty | eauto].
Qed.

(** C10 in scenario A. *)
Lemma C10_outbound_row_has_inbound_category_witness :
  exists added,
    chat_message (snd (POST Scenario.envA Scenario.reqA [])) = added
    /\ forall row, In row added -> msg_type (row_message row) = BOT ->
         msg_category (row_message row) = "security".
Proof.
  destruct (C10_outbound_row_has_inbound_category
              Scenario.envA Scenario.reqA []
              (fst (POST Scenario.envA Scenario.reqA []))
              (snd (POST Scenario.envA Scenario.reqA [])))
    as ((added & Hadd & Hrows) & _).
  - vm_compute. reflexivity.
  - exists added. split; [exact Hadd|].
    intros row Hin Hty. destruct (Hrows row Hin Hty) as (raw & c & _ & Hc & ->).
    vm_compute in Hc. now injection Hc as <-.
Defined.

(** ** More on [replace] and the rewrite *)

Section ReplaceFacts.
Import JSString.

(** [startsWith] on a string that begins with the pattern. *)
Lemma startsWith_append (p t : string) : startsWith (p ++ t) p = true.
Proof. apply startsWith_iff. now exists t. Qed.

(** [StringIndexOf] finds the first occurrence: no occurrence of the pattern
    starts before the index it returns. *)
Lemma StringIndexOf_is_first (s p : string) (i : nat) :
  StringIndexOf s p = Some i ->
  forall pre post, s = pre ++ p ++ post -> i <= String.length pre.
Proof.
  revert i. induction s as [|c s IH]; intros i; simpl.
  - destruct (startsWith EmptyString p); [|discriminate].
    intros [= <-] pre post _. lia.
  - destruct (startsWith (String c s) p) eqn:E.
    + intros [= <-] pre post _. lia.
    + destruct (StringIndexOf s p) as [j|] eqn:F; [|discriminate].
      simpl. intros [= <-] pre post H. destruct pre as [|c' pre]; simpl in H.
      * rewrite H, startsWith_append in E. discriminate.
      * injection H as _ H. simpl. apply le_n_S. now apply (IH j eq_refl pre post).
Qed.

(** A replacement text without [$] is taken as it is. *)
Lemma GetSubstitution_plain (matched str : string) (position : nat) (r : string) :
  plainText r = true -> GetSubstitution matched str position r = r.
Proof.
  unfold plainText. induction r as [|c r IH]; simpl; [reflexivity|].
  rewrite negb_true_iff, orb_false_iff. intros [Hc Hr].
  rewrite Hc, IH; [reflexivity | now rewrite Hr].
Qed.

(** A prefix without [$] of the replacement text is copied, and the rest is
    expanded as if it stood alone. *)
Lemma GetSubstitution_plain_prefix (matched str : string) (position : nat)
    (a t : string) :
  plainText a = true ->
  GetSubstitution matched str position (a ++ t)
  = a ++ GetSubstitution matched str position t.
Proof.
  unfold plainText. induction a as [|c a IH]; [reflexivity|].
  cbn [hasChar]. rewrite negb_true_iff, orb_false_iff. intros [Hc Ha].
  change (String c a ++ t) with (String c (a ++ t)).
  cbn [GetSubstitution]. rewrite Hc, IH; [reflexivity | now rewrite Ha].
Qed.

End ReplaceFacts.

(** X1: the index that [StringIndexOf] returns is the start of an occurrence
    of the pattern, and no occurrence starts before it. *)
Theorem X1_StringIndexOf_first_occurrence (s p : string) (i : nat) :
  JSString.StringIndexOf s p = Some i ->
  (exists pre post, s = pre ++ p ++ post /\ String.length pre = i)
  /\ forall pre post, s = pre ++ p ++ post -> i <= String.length pre.
Proof.
  intros H. split.
  - apply StringIndexOf_Some, H.
  - apply StringIndexOf_is_first, H.
Qed.

(** X1 on "a-b-b": the first "b" is at index 2. *)
Lemma X1_StringIndexOf_first_occurrence_witness :
  JSString.StringIndexOf "a-b-b" "b" = Some 2
  /\ 2 <= String.length "a-b-".
Proof.
  split; [reflexivity|].
  apply (proj2 (X1_StringIndexOf_first_occurrence "a-b-b" "b" 2 eq_refl)
               "a-b-" EmptyString).
  reflexivity.
Defined.

(** X2: with a substitution that holds no [$], [replace] puts the
    substitution in the place of the first occurrence of the original and
    keeps the text before and after it. *)
Theorem X2_replace_plain_first_occurrence (s p r : string) (i : nat) :
  plainText r = true ->
  JSString.StringIndexOf s p = Some i ->
  exists pre post,
    s = pre ++ p ++ post
    /\ String.length pre = i
    /\ JSString.replace s p r = pre ++ r ++ post.
Proof.
  intros Hr Hi. destruct (replace_first s p r i Hi) as (pre & post & Hs & Hl & Hrep).
  exists pre, post. rewrite Hrep, GetSubstitution_plain by exact Hr. auto.
Qed.

(** X2 on the message of scenario A. *)
Lemma X2_replace_plain_first_occurrence_witness :
  exists pre post,
    "my password is secret123" = pre ++ "secret123" ++ post
    /\ String.length pre = 15
    /\ JSString.replace "my password is secret123" "secret123" "[REDACTED]"
       = pre ++ "[REDACTED]" ++ post.
Proof.
  apply (X2_replace_plain_first_occurrence
           "my password is secret123" "secret123" "[REDACTED]" 15);
    reflexivity.
Defined.

(** X3: a substitution that holds [$&] between two texts without [$] puts
    the original back: after [replace] the content still holds the
    original, between the two texts. *)
Theorem X3_replace_dollar_ampersand_keeps_original (s p a b : string) (i : nat) :
  plainText a = true ->
  plainText b = true ->
  JSString.StringIndexOf s p = Some i ->
  exists pre post,
    s = pre ++ p ++ post
    /\ JSString.replace s p (a ++ "$&" ++ b) = pre ++ a ++ p ++ b ++ post
    /\ JSString.includes (JSString.replace s p (a ++ "$&" ++ b)) p = true.
Proof.
  intros Ha Hb Hi.
  destruct (replace_first s p (a ++ "$&" ++ b) i Hi) as (pre & post & Hs & Hl & Hrep).
  exists pre, post. split; [exact Hs|].
  assert (E : JSString.replace s p (a ++ "$&" ++ b) = pre ++ a ++ p ++ b ++ post).
  { rewrite Hrep, GetSubstitution_plain_prefix by exact Ha.
    change ("$&" ++ b) with (String "$" (String "&" b)).
    cbn [JSString.GetSubstitution Ascii.eqb Bool.eqb].
    rewrite GetSubstitution_plain by exact Hb.
    now rewrite !append_assoc. }
  split; [exact E|].
  rewrite E. apply includes_iff. exists (pre ++ a), (b ++ post).
  now rewrite !append_assoc.
Qed.

(** X3 on a rule that means to mark the blocked text. *)
Lemma X3_replace_dollar_ampersand_keeps_original_witness :
  exists pre post,
    "my password is secret123" = pre ++ "secret123" ++ post
    /\ JSString.replace "my password is secret123" "secret123" ("[" ++ "$&" ++ "]")
       = pre ++ "[" ++ "secret123" ++ "]" ++ post
    /\ JSString.includes
         (JSString.replace "my password is secret123" "secret123" ("[" ++ "$&" ++ "]"))
         "secret123" = true.
Proof.
  apply (X3_replace_dollar_ampersand_keeps_original
           "my password is secret123" "secret123" "[" "]" 15);
    reflexivity.
Defined.

(** X4: an empty original occurs at index 0 of every content, so [replace]
    puts the substitution in front of the content and keeps all of it. *)
Theorem X4_replace_empty_original_prepends (s r : string) :
  plainText r = true ->
  JSString.replace s EmptyString r = r ++ s.
Proof.
  intros Hr. unfold JSString.replace.
  assert (E : JSString.StringIndexOf s EmptyString = Some 0) by now destruct s.
  rewrite E, GetSubstitution_plain by exact Hr.
  unfold JSString.substringFromTo. cbn [String.length Nat.add].
  rewrite !Nat.sub_0_r, substring_all.
  now destruct s.
Qed.

(** X4 on a short content. *)
Lemma X4_replace_empty_original_prepends_witness :
  JSString.replace "abc" EmptyString "x" = "xabc".
Proof.
  apply (X4_replace_empty_original_prepends "abc" "x"). reflexivity.
Defined.

(** X5: the rewrite with two lists of rules, one after the other, is the
    rewrite with the first list followed by the rewrite with the second. *)
Theorem X5_newMessages_rules_in_sequence (messages : list Message)
    (rules1 rules2 : list TriggeredRule) :
  newMessages messages (rules1 ++ rules2)
  = newMessages (newMessages messages rules1) rules2.
Proof.
  unfold newMessages. rewrite map_map. apply map_ext. intros message.
  cbn [role content]. now rewrite applyTriggeredRules_app.
Qed.

(** X6: the rewrite keeps the number of the messages, their order and their
    roles: only contents change. *)
Theorem X6_newMessages_keeps_roles (messages : list Message)
    (rules : list TriggeredRule) :
  map role (newMessages messages rules) = map role messages
  /\ length (newMessages messages rules) = length messages.
Proof.
  unfold newMessages. rewrite map_map, length_map. split; [|reflexivity].
  now apply map_ext.
Qed.

(** ** More on the array operations of the handler *)

Section ArrayFacts.
Context {A B : Type}.

(** The last index of an array that ends in [x] holds [x]. *)
Lemma index_last_app (xs : list A) (x : A) :
  index (xs ++ [x]) (lastIndex (xs ++ [x])) = Some x.
Proof.
  unfold index, lastIndex. rewrite length_app. cbn [length].
  replace (Z.of_nat (length xs + 1) - 1)%Z with (Z.of_nat (length xs)) by lia.
  destruct (Z.ltb_spec (Z.of_nat (length xs)) 0); [lia|].
  rewrite Nat2Z.id, nth_error_app2, Nat.sub_diag by lia. reflexivity.
Qed.

(** [slice(0, -1)] drops the last element. *)
Lemma sliceButLast_app (xs : list A) (x : A) : sliceButLast (xs ++ [x]) = xs.
Proof.
  unfold sliceButLast. rewrite length_app. cbn [length].
  replace (Z.to_nat (Z.max (Z.of_nat (length xs + 1) - 1) 0)) with (length xs) by lia.
  rewrite firstn_app, Nat.sub_diag, firstn_all. cbn [firstn]. apply app_nil_r.
Qed.

(** [xs.map(f)] throws as soon as [f] throws on one element. *)
Lemma mapOption_None (f : A -> option B) (xs : list A) (x : A) :
  In x xs -> f x = None -> mapOption f xs = None.
Proof.
  induction xs as [|a xs IH]; cbn [In mapOption]; [contradiction|].
  intros [-> | Hin] Hx.
  - now rewrite Hx.
  - rewrite (IH Hin Hx). now destruct (f a).
Qed.

(** When no call throws, [xs.map(f)] holds the results in the order of [xs]. *)
Lemma mapOption_Some (f : A -> option B) (xs : list A) (ys : list B) :
  mapOption f xs = Some ys -> Forall2 (fun x y => f x = Some y) xs ys.
Proof.
  revert ys. induction xs as [|a xs IH]; cbn [mapOption]; intros ys.
  - intros [= <-]. constructor.
  - destruct (f a) as [b|] eqn:Ha; [|discriminate].
    destruct (mapOption f xs) as [zs|]; [|discriminate].
    intros [= <-]. constructor; [exact Ha | now apply IH].
Qed.

End ArrayFacts.

(** X7: reading the last index of an array fails exactly on the empty array;
    otherwise the array is its [slice(0, -1)] followed by the element read,
    so the earlier messages and the inbound message make up the request. *)
Theorem X7_array_is_slice_and_last {A : Type} (xs : list A) :
  (index xs (lastIndex xs) = None <-> xs = [])
  /\ forall x, index xs (lastIndex xs) = Some x -> xs = (sliceButLast xs ++ [x])%list.
Proof.
  induction xs as [|y ys _] using rev_ind.
  - split; [split; reflexivity | discriminate].
  - rewrite index_last_app, sliceButLast_app. split.
    + split; [discriminate | intros H; now destruct ys].
    + now intros x [= ->].
Qed.

(** X7 on the three messages of a request. *)
Lemma X7_array_is_slice_and_last_witness :
  messages_in Cases.reqThree
  = (sliceButLast (messages_in Cases.reqThree)
     ++ [mkRawMessage (Some "m3") "user" "my password is secret123"])%list.
Proof.
  apply (proj2 (X7_array_is_slice_and_last (messages_in Cases.reqThree))).
  reflexivity.
Defined.

(** X8: [rulesData.map(rule => BlockRuleSchema.parse(rule))] returns an array
    exactly when every row parses, and then it holds the parsed rows one for
    one, in the order of the rows; it throws exactly when some row does not
    parse. *)
Theorem X8_parsed_rules_all_or_nothing {A B : Type} (f : A -> option B)
    (xs : list A) :
  (forall ys, mapOption f xs = Some ys <-> Forall2 (fun x y => f x = Some y) xs ys)
  /\ (mapOption f xs = None <-> exists x, In x xs /\ f x = None).
Proof.
  split.
  - intros ys. split; [apply mapOption_Some|].
    induction 1 as [|x y xs' ys' Hxy _ IH]; cbn [mapOption]; [reflexivity|].
    now rewrite Hxy, IH.
  - split.
    + induction xs as [|a xs IH]; cbn [mapOption]; [discriminate|].
      destruct (f a) as [b|] eqn:Ha.
      * destruct (mapOption f xs); [discriminate|].
        intros _. destruct (IH eq_refl) as (x & Hin & Hx).
        exists x. split; [now right | exact Hx].
      * intros _. exists a. split; [now left | exact Ha].
    + intros (x & Hin & Hx). exact (mapOption_None f xs x Hin Hx).
Qed.

(** ** More on the runs of the handler *)

(** A request without messages has no inbound message. *)
Lemma inboundMessage_nil (incomingData : Request) :
  messages_in incomingData = [] -> inboundMessage incomingData = None.
Proof. unfold inboundMessage. now intros ->. Qed.

(** X9: the table after a run is the table before it followed by the rows
    of the inserts that succeeded, in their order; these are no row, the
    row of the inbound message, or that row and then the row of the reply. *)
Theorem X9_table_grows_by_inserted_rows (env : Env) (incomingData : Request)
    (table : list ChatMessageRow) (outcome : Outcome) (w : World) :
  POST env incomingData table = (outcome, w) ->
  chat_message w = (table ++ storedRows (trace w))%list
  /\ (storedRows (trace w) = []
      \/ (exists id content category,
            storedRows (trace w)
            = [mkChatMessageRow id (inboundRow incomingData content category)])
      \/ (exists id content id' reply category,
            storedRows (trace w)
            = [mkChatMessageRow id (inboundRow incomingData content category);
               mkChatMessageRow id' (outboundRow incomingData reply category)])).
Proof.
  intros H. run_POST H; cbn [storedRows].
  all: split; [rewrite <- ?app_assoc, ?app_nil_r; reflexivity|].
  all: first [ left; reflexivity
             | right; left; do 3 eexists; reflexivity
             | right; right; do 5 eexists; reflexivity ].
Qed.

(** X9 in scenario A, on an empty table. *)
Lemma X9_table_grows_by_inserted_rows_witness :
  chat_message (snd (POST Scenario.envA Scenario.reqA []))
  = storedRows (trace (snd (POST Scenario.envA Scenario.reqA []))).
Proof.
  destruct (X9_table_grows_by_inserted_rows
              Scenario.envA Scenario.reqA []
              (fst (POST Scenario.envA Scenario.reqA []))
              (snd (POST Scenario.envA Scenario.reqA []))) as [Htable _].
  - vm_compute. reflexivity.
  - exact Htable.
Defined.



(** X11: on a request without messages the handler throws when it reads the
    content of the last message (or before, on the persona): nothing is
    classified, nothing is inserted, the completion chain is not called. *)
Theorem X11_empty_request_throws (env : Env) (incomingData : Request)
    (table : list ChatMessageRow) (outcome : Outcome) (w : World) :
  POST env incomingData table = (outcome, w) ->
  messages_in incomingData = [] ->
  (outcome = Threw TypeError \/ outcome = Threw ConfigurationError)
  /\ chat_message w = table
  /\ existsb isModelCall (trace w) = false
  /\ existsb isInsert (trace w) = false.
Proof.
  intros H Hempty. apply inboundMessage_nil in Hempty.
  unfold_POST H. rewrite Hempty in H.
  repeat branch H; injection H as <- <-; cbn; auto.
Qed.

(** X11 for a usable persona: the error is the [TypeError]. *)
Lemma X11_empty_request_throws_witness :
  (fst (POST Scenario.envA Cases.reqEmpty []) = Threw TypeError
   \/ fst (POST Scenario.envA Cases.reqEmpty []) = Threw ConfigurationError)
  /\ chat_message (snd (POST Scenario.envA Cases.reqEmpty [])) = []
  /\ existsb isModelCall (trace (snd (POST Scenario.envA Cases.reqEmpty []))) = false
  /\ existsb isInsert (trace (snd (POST Scenario.envA Cases.reqEmpty []))) = false.
Proof.
  apply (X11_empty_request_throws
           Scenario.envA Cases.reqEmpty []
           (fst (POST Scenario.envA Cases.reqEmpty []))
           (snd (POST Scenario.envA Cases.reqEmpty []))).
  - vm_compute. reflexivity.
  - reflexivity.
Defined.

(** X12: when the select of the block rules fails, the error is written to
    the console and the handler returns [null]: no insert is attempted, the
    rules are not evaluated and the completion chain is not called. *)
Theorem X12_rules_error_returns_null (env : Env) (incomingData : Request)
    (table : list ChatMessageRow) (outcome : Outcome) (w : World)
    (company e : string) :
  POST env incomingData table = (outcome, w) ->
  In (EvRulesFetch company (RulesError e)) (trace w) ->
  outcome = Responded ReturnNull
  /\ In (EvConsoleError (Some e)) (trace w)
  /\ chat_message w = table
  /\ existsb isInsert (trace w) = false
  /\ countEvents isEvaluate (trace w) = 0
  /\ chainInputs (trace w) = [].
Proof.
  intros H. run_POST H; intros Hev; pick_event Hev.
  all: cbn; intuition.
Qed.

(** X12 for a select that is refused. *)
Lemma X12_rules_error_returns_null_witness :
  fst (POST Cases.envRulesError Scenario.reqA []) = Responded ReturnNull
  /\ chat_message (snd (POST Cases.envRulesError Scenario.reqA [])) = [].
Proof.
  destruct (X12_rules_error_returns_null
              Cases.envRulesError Scenario.reqA []
              (fst (POST Cases.envRulesError Scenario.reqA []))
              (snd (POST Cases.envRulesError Scenario.reqA []))
              "acme" "permission denied")
    as (Hout & _ & Htable & _).
  - vm_compute. reflexivity.
  - in_trace.
  - split; [exact Hout | exact Htable].
Defined.

(** X13: when the insert of the inbound message fails, the error is written
    to the console and the handler returns [null]: the table is as it was,
    the rules are not parsed or evaluated and the completion chain is not
    called. *)
Theorem X13_inbound_insert_error_returns_null (env : Env) (incomingData : Request)
    (table : list ChatMessageRow) (outcome : Outcome) (w : World)
    (row : NewChatMessage) (e : string) :
  POST env incomingData table = (outcome, w) ->
  In (EvInsert row (InsertError e)) (trace w) ->
  msg_type row = USER ->
  outcome = Responded ReturnNull
  /\ In (EvConsoleError (Some e)) (trace w)
  /\ chat_message w = table
  /\ countEvents isEvaluate (trace w) = 0
  /\ chainInputs (trace w) = [].
Proof.
  intros H. run_POST H; intros Hev; pick_event Hev.
  all: cbn [msg_type]; intros Hty; try discriminate Hty.
  all: cbn; intuition.
Qed.

(** X13 when every insert fails. *)
Lemma X13_inbound_insert_error_returns_null_witness :
  fst (POST Cases.envInsertFails Scenario.reqA []) = Responded ReturnNull
  /\ chat_message (snd (POST Cases.envInsertFails Scenario.reqA [])) = [].
Proof.
  destruct (X13_inbound_insert_error_returns_null
              Cases.envInsertFails Scenario.reqA []
              (fst (POST Cases.envInsertFails Scenario.reqA []))
              (snd (POST Cases.envInsertFails Scenario.reqA []))
              (inboundRow Scenario.reqA "my password is secret123" "security")
              "insert failed")
    as (Hout & _ & Htable & _).
  - vm_compute. reflexivity.
  - in_trace.
  - reflexivity.
  - split; [exact Hout | exact Htable].
Defined.

(** X14: one stored rule that [BlockRuleSchema.parse] refuses stops the turn:
    no rule is evaluated and the completion chain is not called.  The rules
    are parsed after the insert of the inbound message, so the handler
    throws with the inbound row stored, unless that insert had failed. *)
Theorem X14_malformed_rule_stops_the_turn (env : Env) (incomingData : Request)
    (table : list ChatMessageRow) (outcome : Outcome) (w : World)
    (company : string) (rows : list RawRule) (raw : RawRule) :
  POST env incomingData table = (outcome, w) ->
  In (EvRulesFetch company (RulesData rows)) (trace w) ->
  In raw rows ->
  BlockRuleSchema_parse env raw = None ->
  countEvents isEvaluate (trace w) = 0
  /\ chainInputs (trace w) = []
  /\ ((outcome = Responded ReturnNull /\ chat_message w = table)
      \/ (outcome = Threw ZodError
          /\ exists id content category,
               chat_message w
               = (table ++ [mkChatMessageRow id
                              (inboundRow incomingData content category)])%list)).
Proof.
  intros H. run_POST H; intros Hev Hin Hbad; pick_event Hev.
  all: try match goal with
         | E : mapOption _ _ = Some _ |- _ =>
             rewrite (mapOption_None _ _ _ Hin Hbad) in E; discriminate E
         end.
  all: split; [reflexivity|]; split; [reflexivity|].
  all: first [ left; split; reflexivity
             | right; split; [reflexivity|]; do 3 eexists; reflexivity ].
Qed.

(** X14 for a stored rule without matcher. *)
Lemma X14_malformed_rule_stops_the_turn_witness :
  countEvents isEvaluate (trace (snd (POST Cases.envBadRule Scenario.reqA []))) = 0
  /\ chainInputs (trace (snd (POST Cases.envBadRule Scenario.reqA []))) = []
  /\ fst (POST Cases.envBadRule Scenario.reqA []) = Threw ZodError.
Proof.
  destruct (X14_malformed_rule_stops_the_turn
              Cases.envBadRule Scenario.reqA []
              (fst (POST Cases.envBadRule Scenario.reqA []))
              (snd (POST Cases.envBadRule Scenario.reqA []))
              "acme" [Scenario.redact; Cases.noMatcher] Cases.noMatcher)
    as (Heval & Hchain & _).
  - vm_compute. reflexivity.
  - in_trace.
  - right. now left.
  - reflexivity.
  - split; [exact Heval|]. split; [exact Hchain | reflexivity].
Defined.

(** Finds an event with unknown parts in a literal trace. *)
Ltac in_literal_trace :=
  solve [cbn [In]; repeat (first [left; reflexivity | right])].

(** X15: when the completion call rejects, the handler throws the rejection:
    no reply row is inserted, and the row of the inbound message, inserted
    before the call, stays in the table. *)
Theorem X15_completion_rejection_keeps_inbound_row (env : Env)
    (incomingData : Request) (table : list ChatMessageRow) (outcome : Outcome)
    (w : World) (template chat_history input e : string) :
  POST env incomingData table = (outcome, w) ->
  In (EvChainCall template chat_history input (CallRejects e)) (trace w) ->
  outcome = Threw (Rejected e)
  /\ exists id raw c,
       inboundMessage incomingData = Some raw
       /\ categorizePrompt env (raw_content raw) = Some c
       /\ chat_message w
          = (table ++ [mkChatMessageRow id
                         (inboundRow incomingData (raw_content raw) (category c))])%list.
Proof.
  intros H. run_POST H; intros Hev; pick_event Hev.
  all: split; [reflexivity|]; do 3 eexists; repeat split; eauto.
Qed.

(** X15 for a completion call that times out. *)
Lemma X15_completion_rejection_keeps_inbound_row_witness :
  fst (POST Cases.envChainRejects Scenario.reqA []) = Threw (Rejected "timeout").
Proof.
  destruct (X15_completion_rejection_keeps_inbound_row
              Cases.envChainRejects Scenario.reqA []
              (fst (POST Cases.envChainRejects Scenario.reqA []))
              (snd (POST Cases.envChainRejects Scenario.reqA []))
              (TEMPLATE "You are a helpful assistant.") EmptyString
              "my password is secret123" "timeout")
    as (Hout & _).
  - vm_compute. reflexivity.
  - in_trace.
  - exact Hout.
Defined.

(** X16: when the completion call resolves to a falsy value, the guard of
    line 178 skips the insert of the reply: one insert was attempted, and the
    row of the inbound message is the only new row.  For a falsy value that
    JSON can hold the handler answers with the JSON of that value; for
    [undefined] the call of [NextResponse.json] throws a [TypeError]. *)
Theorem X16_falsy_result_skips_reply_insert (env : Env) (incomingData : Request)
    (table : list ChatMessageRow) (outcome : Outcome) (w : World)
    (template chat_history input : string) (res : CallResult) :
  POST env incomingData table = (outcome, w) ->
  In (EvChainCall template chat_history input res) (trace w) ->
  res = CallResolves None \/ res = CallResolvesUndefined ->
  (res = CallResolves None -> outcome = Responded (ReturnJson None))
  /\ (res = CallResolvesUndefined -> outcome = Threw TypeError)
  /\ countEvents isInsert (trace w) = 1
  /\ exists id raw c,
       inboundMessage incomingData = Some raw
       /\ categorizePrompt env (raw_content raw) = Some c
       /\ chat_message w
          = (table ++ [mkChatMessageRow id
                         (inboundRow incomingData (raw_content raw) (category c))])%list.
Proof.
  intros H. run_POST H; intros Hev; pick_event Hev.
  all: intros [Hres | Hres]; try discriminate Hres.
  all: (split; [intros Hfalsy; first [discriminate Hfalsy | reflexivity]|]).
  all: (split; [intros Hundef; first [discriminate Hundef | reflexivity]|]).
  all: (split; [reflexivity|]).
  all: do 3 eexists; repeat split; eauto.
Qed.

(** X16 for a completion call that resolves to [null], and for one that
    resolves to [undefined]. *)
Lemma X16_falsy_result_skips_reply_insert_witness :
  fst (POST Cases.envChainFalsy Scenario.reqA []) = Responded (ReturnJson None)
  /\ countEvents isInsert (trace (snd (POST Cases.envChainFalsy Scenario.reqA []))) = 1
  /\ fst (POST Cases.envChainUndefined Scenario.reqA []) = Threw TypeError
  /\ countEvents isInsert
       (trace (snd (POST Cases.envChainUndefined Scenario.reqA []))) = 1.
Proof.
  destruct (X16_falsy_result_skips_reply_insert
              Cases.envChainFalsy Scenario.reqA []
              (fst (POST Cases.envChainFalsy Scenario.reqA []))
              (snd (POST Cases.envChainFalsy Scenario.reqA []))
              (TEMPLATE "You are a helpful assistant.") EmptyString
              "my password is secret123" (CallResolves None))
    as (Hjson & _ & Hcount & _);
    [vm_compute; reflexivity | in_trace | now left |].
  destruct (X16_falsy_result_skips_reply_insert
              Cases.envChainUndefined Scenario.reqA []
              (fst (POST Cases.envChainUndefined Scenario.reqA []))
              (snd (POST Cases.envChainUndefined Scenario.reqA []))
              (TEMPLATE "You are a helpful assistant.") EmptyString
              "my password is secret123" CallResolvesUndefined)
    as (_ & Hthrows & Hcount' & _);
    [vm_compute; reflexivity | in_trace | now right |].
  split; [apply Hjson; reflexivity|].
  split; [exact Hcount|].
  split; [apply Hthrows; reflexivity | exact Hcount'].
Defined.

(** X17: when the handler answers with the JSON of a reply, the turn added
    exactly two rows to the table: the USER row with the content of the
    inbound message and the user of the request, then the BOT row with the
    text of the reply and no user; both carry the chat block of the request
    and the category the classifier gave the inbound content. *)
Theorem X17_reply_means_both_rows_stored (env : Env) (incomingData : Request)
    (table : list ChatMessageRow) (outcome : Outcome) (w : World)
    (values : ChainValues) :
  POST env incomingData table = (outcome, w) ->
  outcome = Responded (ReturnJson (Some values)) ->
  exists id id' raw c,
    inboundMessage incomingData = Some raw
    /\ categorizePrompt env (raw_content raw) = Some c
    /\ chat_message w
       = (table
          ++ [mkChatMessageRow id
                (inboundRow incomingData (raw_content raw) (category c));
              mkChatMessageRow id'
                (outboundRow incomingData (text values) (category c))])%list.
Proof.
  intros H. run_POST H; intros Hout; try discriminate Hout.
  all: injection Hout as ->.
  all: rewrite <- app_assoc; cbn [app].
  all: do 4 eexists; repeat split; eauto.
Qed.

(** X17 in scenario A. *)
Lemma X17_reply_means_both_rows_stored_witness :
  exists id id',
    chat_message (snd (POST Scenario.envA Scenario.reqA []))
    = [mkChatMessageRow id
         (inboundRow Scenario.reqA "my password is secret123" "security");
       mkChatMessageRow id'
         (outboundRow Scenario.reqA "Noted." "security")].
Proof.
  destruct (X17_reply_means_both_rows_stored
              Scenario.envA Scenario.reqA []
              (fst (POST Scenario.envA Scenario.reqA []))
              (snd (POST Scenario.envA Scenario.reqA []))
              (mkChainValues "Noted."))
    as (id & id' & raw & c & Hraw & Hc & Htable).
  - vm_compute. reflexivity.
  - vm_compute. reflexivity.
  - exists id, id'. rewrite Htable.
    vm_compute in Hraw. injection Hraw as <-.
    vm_compute in Hc. injection Hc as <-. reflexivity.
Defined.

(** X18: what the handler returns tells how the turn ended.  It returns
    [null] only after the select of the rules or the insert of the inbound
    message failed, it returns without a value only after the insert of the
    reply failed, and the JSON it answers with is the value the completion
    call resolved to. *)
Theorem X18_response_tells_the_failure (env : Env) (incomingData : Request)
    (table : list ChatMessageRow) (outcome : Outcome) (w : World) :
  POST env incomingData table = (outcome, w) ->
  (outcome = Responded ReturnNull ->
     (exists e,
        In (EvRulesFetch (company_id incomingData) (RulesError e)) (trace w))
     \/ (exists content category e,
           In (EvInsert (inboundRow incomingData content category) (InsertError e))
              (trace w)))
  /\ (outcome = Responded ReturnUndefined ->
        exists reply category e,
          In (EvInsert (outboundRow incomingData reply category) (InsertError e))
             (trace w))
  /\ (forall resB,
        outcome = Responded (ReturnJson resB) ->
        exists template chat_history input,
          In (EvChainCall template chat_history input (CallResolves resB)) (trace w)).
Proof.
  intros H. run_POST H.
  all: split; [|split].
  all: try (intros Hout; discriminate Hout).
  all: try (intros answered Hout; discriminate Hout).
  all: first [ intros answered Hout; injection Hout as <-; do 3 eexists;
               in_literal_trace
             | intros _; left; eexists; in_literal_trace
             | intros _; right; do 3 eexists; in_literal_trace
             | intros _; do 3 eexists; in_literal_trace ].
Qed.

(** X18 in scenario D: the handler returns without a value. *)
Lemma X18_response_tells_the_failure_witness :
  exists reply category e,
    In (EvInsert (outboundRow Scenario.reqA reply category) (InsertError e))
       (trace (snd (POST Scenario.envD Scenario.reqA []))).
Proof.
  destruct (X18_response_tells_the_failure
              Scenario.envD Scenario.reqA []
              (fst (POST Scenario.envD Scenario.reqA []))
              (snd (POST Scenario.envD Scenario.reqA [])))
    as (_ & Hundef & _).
  - vm_compute. reflexivity.
  - apply Hundef. vm_compute. reflexivity.
Defined.

(** X19: the event CHAT_MESSAGE_BLOCK_RULE_TRIGGERED is logged exactly when
    the evaluation returned at least one triggered rule, and it carries the
    content of the inbound message, the rules the evaluation returned, and
    the company and the user of the request. *)
Theorem X19_trigger_is_logged_when_rules_trigger (env : Env)
    (incomingData : Request) (table : list ChatMessageRow) (outcome : Outcome)
    (w : World) :
  POST env incomingData table = (outcome, w) ->
  (forall message triggered company user,
     In (EvApiLog (CHAT_MESSAGE_BLOCK_RULE_TRIGGERED message triggered company user))
        (trace w) ->
     triggered <> []
     /\ company = company_id incomingData
     /\ user = user_id incomingData
     /\ exists evaluated message_id rules,
          In (EvEvaluate evaluated message_id rules (Some triggered)) (trace w)
          /\ message = content evaluated)
  /\ (forall evaluated message_id rules triggered,
        In (EvEvaluate evaluated message_id rules (Some triggered)) (trace w) ->
        triggered <> [] ->
        In (EvApiLog (CHAT_MESSAGE_BLOCK_RULE_TRIGGERED (content evaluated) triggered
                        (company_id incomingData) (user_id incomingData)))
           (trace w)).
Proof.
  intros H. run_POST H.
  all: split.
  all: try (intros message triggered company user Hev; pick_event Hev;
            (split;
             [ match goal with
               | E : Nat.ltb 0 (length ?l) = true |- _ =>
                   destruct l; [discriminate E | discriminate]
               end
             | split; [reflexivity|]; split; [reflexivity|];
               do 3 eexists; split; [in_literal_trace | reflexivity] ])).
  all: intros evaluated message_id prules triggered Hev Hne; pick_event Hev.
  all: first [ in_literal_trace
             | match goal with
               | E : Nat.ltb 0 (length ?l) = false |- _ =>
                   destruct l; [contradiction | discriminate E]
               end ].
Qed.

(** X19 in scenario A, where the rule triggers. *)
Lemma X19_trigger_is_logged_when_rules_trigger_witness :
  In (EvApiLog (CHAT_MESSAGE_BLOCK_RULE_TRIGGERED
                  "my password is secret123"
                  [mkTriggeredRule "secret123" "[REDACTED]" 7 1] "acme" "u1"))
     (trace (snd (POST Scenario.envA Scenario.reqA []))).
Proof.
  destruct (X19_trigger_is_logged_when_rules_trigger
              Scenario.envA Scenario.reqA []
              (fst (POST Scenario.envA Scenario.reqA []))
              (snd (POST Scenario.envA Scenario.reqA []))) as (_ & Hlog).
  - vm_compute. reflexivity.
  - apply (Hlog (mkMessage "user" "my password is secret123") 1%Z
                [mkBlockRule 7 "acme" "secret123" "[REDACTED]"]
                [mkTriggeredRule "secret123" "[REDACTED]" 7 1]).
    + in_trace.
    + discriminate.
Defined.

(** X20: the event CHAT_MESSAGE_CREATED is logged exactly when the
    classifier answered, with the text that was classified, the answer of
    the classifier, and the company and the user of the request. *)
Theorem X20_created_is_logged_when_classified (env : Env) (incomingData : Request)
    (table : list ChatMessageRow) (outcome : Outcome) (w : World) :
  POST env incomingData table = (outcome, w) ->
  (forall input categorization,
     In (EvClassify input (Some categorization)) (trace w) ->
     In (EvApiLog (CHAT_MESSAGE_CREATED input categorization
                     (company_id incomingData) (user_id incomingData)))
        (trace w))
  /\ (forall message categorization company user,
        In (EvApiLog (CHAT_MESSAGE_CREATED message categorization company user))
           (trace w) ->
        In (EvClassify message (Some categorization)) (trace w)
        /\ company = company_id incomingData
        /\ user = user_id incomingData).
Proof.
  intros H. run_POST H.
  all: split.
  all: try (intros input categorization Hev; pick_event Hev; in_literal_trace).
  all: intros message categorization company user Hev; pick_event Hev.
  all: (split; [in_literal_trace | split; reflexivity]).
Qed.

(** X20 in scenario A. *)
Lemma X20_created_is_logged_when_classified_witness :
  In (EvApiLog (CHAT_MESSAGE_CREATED
                  "my password is secret123"
                  (mkCategorization "security" "low" ["password"]) "acme" "u1"))
     (trace (snd (POST Scenario.envA Scenario.reqA []))).
Proof.
  destruct (X20_created_is_logged_when_classified
              Scenario.envA Scenario.reqA []
              (fst (POST Scenario.envA Scenario.reqA []))
              (snd (POST Scenario.envA Scenario.reqA []))) as (Hlog & _).
  - vm_compute. reflexivity.
  - apply Hlog. in_trace.
Defined.

(** X21: for a request whose messages are some earlier messages and then the
    inbound one, a completion call, if the run gets to it, is given the
    earlier messages, each formatted as role, colon, space, content, joined
    by line feeds, as the chat history, and the content of the inbound
    message as the input. *)
Theorem X21_history_and_input_of_the_call (env : Env) (incomingData : Request)
    (table : list ChatMessageRow) (outcome : Outcome) (w : World)
    (previous : list RawMessage) (current : RawMessage) :
  POST env incomingData table = (outcome, w) ->
  messages_in incomingData = (previous ++ [current])%list ->
  chainInputs (trace w) = []
  \/ chainInputs (trace w)
     = [(JSString.join nl (map formatMessage previous), raw_content current)].
Proof.
  intros H Hmsgs. run_POST H; cbn [chainInputs].
  all: first [ left; reflexivity | right ].
  all: match goal with
       | E : inboundMessage _ = Some _ |- _ =>
           unfold inboundMessage in E;
           rewrite Hmsgs, index_last_app in E; injection E as <-
       end.
  all: now rewrite Hmsgs, sliceButLast_app.
Qed.

(** X21 on a request with three messages. *)
Lemma X21_history_and_input_of_the_call_witness :
  chainInputs (trace (snd (POST Scenario.envA Cases.reqThree [])))
  = [("user: hello" ++ nl ++ "assistant: Hi, how can I help?",
      "my password is secret123")].
Proof.
  destruct (X21_history_and_input_of_the_call
              Scenario.envA Cases.reqThree []
              (fst (POST Scenario.envA Cases.reqThree []))
              (snd (POST Scenario.envA Cases.reqThree []))
              [mkRawMessage (Some "m1") "user" "hello";
               mkRawMessage (Some "m2") "assistant" "Hi, how can I help?"]
              (mkRawMessage (Some "m3") "user" "my password is secret123"))
    as [Hnone | Hcall].
  - vm_compute. reflexivity.
  - reflexivity.
  - vm_compute in Hnone. discriminate Hnone.
  - rewrite Hcall. vm_compute. reflexivity.
Defined.

(** X22: the rules are evaluated on the inbound message of the request, with
    the company and the user of the request, and with all the rows that the
    select of the rules returned, parsed, in the order of the rows. *)
Theorem X22_evaluation_gets_all_parsed_rules (env : Env) (incomingData : Request)
    (table : list ChatMessageRow) (outcome : Outcome) (w : World)
    (message : Message) (message_id : Z) (rules : list BlockRule)
    (res : option (list TriggeredRule)) :
  POST env incomingData table = (outcome, w) ->
  In (EvEvaluate message message_id rules res) (trace w) ->
  exists raw rows,
    inboundMessage incomingData = Some raw
    /\ message = toMessage raw
    /\ fetchBlockRules env (company_id incomingData) = RulesData rows
    /\ Forall2 (fun row rule => BlockRuleSchema_parse env row = Some rule) rows rules
    /\ res = evaluateMessageAgainstRules env message (company_id incomingData)
               (user_id incomingData) message_id rules.
Proof.
  intros H. run_POST H; intros Hev; pick_event Hev.
  all: do 2 eexists; repeat split; eauto using mapOption_Some.
Qed.

(** X22 in scenario A. *)
Lemma X22_evaluation_gets_all_parsed_rules_witness :
  exists rows,
    fetchBlockRules Scenario.envA "acme" = RulesData rows
    /\ Forall2 (fun row rule => Scenario.parse row = Some rule) rows
               [mkBlockRule 7 "acme" "secret123" "[REDACTED]"].
Proof.
  destruct (X22_evaluation_gets_all_parsed_rules
              Scenario.envA Scenario.reqA []
              (fst (POST Scenario.envA Scenario.reqA []))
              (snd (POST Scenario.envA Scenario.reqA []))
              (mkMessage "user" "my password is secret123") 1%Z
              [mkBlockRule 7 "acme" "secret123" "[REDACTED]"]
              (Some [mkTriggeredRule "secret123" "[REDACTED]" 7 1]))
    as (raw & rows & _ & _ & Hrows & Hparsed & _).
  - vm_compute. reflexivity.
  - in_trace.
  - exists rows. split; [exact Hrows | exact Hparsed].
Defined.

(** X23: the rewritten history is computed from all the messages of the
    request, with their roles and contents, and from the triggered rules
    that the evaluation returned; it is computed only after an evaluation
    that returned. *)
Theorem X23_rewrite_uses_evaluated_rules (env : Env) (incomingData : Request)
    (table : list ChatMessageRow) (outcome : Outcome) (w : World)
    (rewritten : list Message) :
  POST env incomingData table = (outcome, w) ->
  In (EvNewMessages rewritten) (trace w) ->
  exists message message_id rules triggered,
    In (EvEvaluate message message_id rules (Some triggered)) (trace w)
    /\ rewritten = newMessages (map toMessage (messages_in incomingData)) triggered.
Proof.
  intros H. run_POST H; intros Hev; pick_event Hev.
  all: do 4 eexists; split; [in_literal_trace | reflexivity].
Qed.

(** X23 in scenario A. *)
Lemma X23_rewrite_uses_evaluated_rules_witness :
  exists message message_id rules triggered,
    In (EvEvaluate message message_id rules (Some triggered))
       (trace (snd (POST Scenario.envA Scenario.reqA [])))
    /\ [mkMessage "user" "my password is [REDACTED]"]
       = newMessages (map toMessage (messages_in Scenario.reqA)) triggered.
Proof.
  apply (X23_rewrite_uses_evaluated_rules
           Scenario.envA Scenario.reqA []
           (fst (POST Scenario.envA Scenario.reqA []))
           (snd (POST Scenario.envA Scenario.reqA []))
           [mkMessage "user" "my password is [REDACTED]"]).
  - vm_compute. reflexivity.
  - in_trace.
Defined.

(** X24: an error reported by the select of the persona is only written to
    the console: when the select also returned attributes that
    [createPersonaPrompt] accepts, the turn goes on and the inbound message
    is classified. *)
Theorem X24_persona_error_is_only_logged (env : Env) (incomingData : Request)
    (table : list ChatMessageRow) (outcome : Outcome) (w : World)
    (e prompt : string) (entries : list (string * Z)) (raw : RawMessage) :
  personaError (fetchPersona env (chat_block_id incomingData)) = Some e ->
  attributeEntries (personaData (fetchPersona env (chat_block_id incomingData)))
  = Some entries ->
  createPersonaPrompt env entries = Some prompt ->
  chainSetup env (TEMPLATE prompt) = None ->
  inboundMessage incomingData = Some raw ->
  POST env incomingData table = (outcome, w) ->
  In (EvConsoleError (Some e)) (trace w)
  /\ In (EvClassify (raw_content raw) (categorizePrompt env (raw_content raw)))
        (trace w).
Proof.
  intros Herr Hentries Hprompt Hsetup Hraw H.
  unfold_POST H.
  rewrite Herr, Hentries in H. cbn [isSome orb] in H.
  rewrite Hprompt, Hraw in H. cbn [option_map] in H.
  rewrite Hsetup in H.
  repeat branch H; injection H as <- <-; cbn [trace].
  all: match goal with
       | E : categorizePrompt _ _ = _ |- _ =>
           cbn [content toMessage] in E; rewrite E
       end.
  all: split; in_literal_trace.
Qed.

(** X24 for a select that returns the persona and a warning. *)
Lemma X24_persona_error_is_only_logged_witness :
  In (EvConsoleError (Some "warning"))
     (trace (snd (POST Cases.envPersonaWarning Scenario.reqA [])))
  /\ In (EvClassify "my password is secret123"
                    (Some (mkCategorization "security" "low" ["password"])))
        (trace (snd (POST Cases.envPersonaWarning Scenario.reqA []))).
Proof.
  apply (X24_persona_error_is_only_logged
           Cases.envPersonaWarning Scenario.reqA []
           (fst (POST Cases.envPersonaWarning Scenario.reqA []))
           (snd (POST Cases.envPersonaWarning Scenario.reqA []))
           "warning" "You are a helpful assistant." [("formality", 1%Z)]
           (mkRawMessage (Some "m1") "user" "my password is secret123")).
  - reflexivity.
  - reflexivity.
  - reflexivity.
  - reflexivity.
  - reflexivity.
  - vm_compute. reflexivity.
Defined.

(** The template begins with the generated prompt and holds the two
    placeholders of the chain. *)
Lemma TEMPLATE_frame (generatedPrompt : string) :
  JSString.startsWith (TEMPLATE generatedPrompt) generatedPrompt = true
  /\ JSString.includes (TEMPLATE generatedPrompt) "{chat_history}" = true
  /\ JSString.includes (TEMPLATE generatedPrompt) "{input}" = true.
Proof.
  unfold TEMPLATE. split; [apply startsWith_append|]. split.
  - apply includes_iff.
    exists (generatedPrompt
            ++ nl ++ " " ++ nl ++ "  Current conversation:" ++ nl ++ "  "),
           (nl ++ "  " ++ nl ++ "  User: {input}" ++ nl ++ "  AI:").
    rewrite append_assoc. reflexivity.
  - apply includes_iff.
    exists (generatedPrompt
            ++ nl ++ " " ++ nl ++ "  Current conversation:" ++ nl
            ++ "  {chat_history}" ++ nl ++ "  " ++ nl ++ "  User: "),
           (nl ++ "  AI:").
    rewrite append_assoc. reflexivity.
Qed.

(** X25: the template of a completion call is the text that
    [createPersonaPrompt] returned for the attribute entries of the fetched
    persona, followed by the fixed frame with the placeholders of the chat
    history and of the input; the chain constructors had accepted it. *)
Theorem X25_template_is_built_from_the_persona (env : Env) (incomingData : Request)
    (table : list ChatMessageRow) (outcome : Outcome) (w : World)
    (template chat_history input : string) (res : CallResult) :
  POST env incomingData table = (outcome, w) ->
  In (EvChainCall template chat_history input res) (trace w) ->
  exists entries prompt,
    attributeEntries (personaData (fetchPersona env (chat_block_id incomingData)))
    = Some entries
    /\ createPersonaPrompt env entries = Some prompt
    /\ template = TEMPLATE prompt
    /\ chainSetup env template = None
    /\ JSString.startsWith template prompt = true
    /\ JSString.includes template "{chat_history}" = true
    /\ JSString.includes template "{input}" = true.
Proof.
  intros H. run_POST H; intros Hev; pick_event Hev.
  all: do 2 eexists.
  all: (split; [reflexivity|]); (split; [eassumption|]).
  all: (split; [reflexivity|]); (split; [eassumption|]).
  all: apply TEMPLATE_frame.
Qed.

(** X25 in scenario A. *)
Lemma X25_template_is_built_from_the_persona_witness :
  exists prompt,
    createPersonaPrompt Scenario.envA [("formality", 1%Z)] = Some prompt
    /\ JSString.startsWith (TEMPLATE "You are a helpful assistant.") prompt = true.
Proof.
  destruct (X25_template_is_built_from_the_persona
              Scenario.envA Scenario.reqA []
              (fst (POST Scenario.envA Scenario.reqA []))
              (snd (POST Scenario.envA Scenario.reqA []))
              (TEMPLATE "You are a helpful assistant.") EmptyString
              "my password is secret123"
              (CallResolves (Some (mkChainValues "Noted."))))
    as (entries & prompt & Hentries & Hprompt & _ & _ & Hstart & _).
  - vm_compute. reflexivity.
  - in_trace.
  - exists prompt. vm_compute in Hentries. injection Hentries as <-.
    split; [exact Hprompt | exact Hstart].
Defined.
